(** * CameraController: a shallow embedding of the capture-session controller

    The native controller of the camera-preview plugin (the Swift class
    [CameraController] of src/definitions.ts) is embedded as a state and
    exception monad over an explicit world: the controller's own fields, the
    store of [AVCaptureDevice] objects it holds references to, and the trace
    of the effects it has on its callers and on the capture hardware.

    Conventions.
    - [CGFloat] and [Float] values are rationals ([Q]).  The code only
      compares and stores them (it performs no floating-point arithmetic),
      and [min]/[max] return one of their arguments.
    - An object with identity ([AVCaptureDevice], [AVCaptureDeviceInput]) is
      a key; device state lives in a [gmap] so that [rearCamera] and
      [currentCamera] alias the same object.
    - A completion closure is a handle; calling it appends the call to the
      trace. *)

From Stdlib Require Import QArith.
From stdpp Require Import base decidable option list gmap strings.

Set Default Proof Using "Type".

(** ** Enumerations *)

Inductive CameraControllerError :=
  | captureSessionAlreadyRunning
  | captureSessionIsMissing
  | inputsAreInvalid
  | invalidOperation
  | noCamerasAvailable
  | unknown.

Inductive CameraPosition := front | rear.

(** [AVCaptureDevice.Position] *)
Module Position.
Inductive t := unspecified | back | front.
End Position.

(** [AVCaptureDevice.DeviceType]; the controller asks for two of them. *)
Module DeviceType.
Inductive t := builtInWideAngleCamera | builtInTripleCamera | other.
End DeviceType.

Module FlashMode.
Inductive t := off | on | auto.
End FlashMode.

Module TorchMode.
Inductive t := off | on | auto.
End TorchMode.

Module FocusMode.
Inductive t := locked | autoFocus | continuousAutoFocus.
End FocusMode.

Module ExposureMode.
Inductive t := locked | autoExpose | continuousAutoExposure | custom.
End ExposureMode.

Module WhiteBalanceMode.
Inductive t := locked | autoWhiteBalance | continuousAutoWhiteBalance.
End WhiteBalanceMode.

Module SessionPreset.
Inductive t := high | photo.
End SessionPreset.

Module VideoGravity.
Inductive t := resizeAspect | resizeAspectFill | resize.
End VideoGravity.

(** [UIGestureRecognizer.State] *)
Module GestureState.
Inductive t := possible | began | changed | ended | cancelled | failed.
End GestureState.

#[global] Instance CameraControllerError_eq_dec : EqDecision CameraControllerError.
Proof. solve_decision. Defined.
#[global] Instance CameraPosition_eq_dec : EqDecision CameraPosition.
Proof. solve_decision. Defined.
#[global] Instance Position_eq_dec : EqDecision Position.t.
Proof. solve_decision. Defined.
#[global] Instance DeviceType_eq_dec : EqDecision DeviceType.t.
Proof. solve_decision. Defined.
#[global] Instance FlashMode_eq_dec : EqDecision FlashMode.t.
Proof. solve_decision. Defined.
#[global] Instance TorchMode_eq_dec : EqDecision TorchMode.t.
Proof. solve_decision. Defined.
#[global] Instance FocusMode_eq_dec : EqDecision FocusMode.t.
Proof. solve_decision. Defined.
#[global] Instance ExposureMode_eq_dec : EqDecision ExposureMode.t.
Proof. solve_decision. Defined.

(** ** Errors

    A Swift [Error] is either one of the controller's own cases or an error
    raised by the capture framework ([lockForConfiguration],
    [AVCaptureDeviceInput(device:)], a failed photo), kept as a code. *)

Inductive Error :=
  | ControllerError (e : CameraControllerError)
  | FrameworkError (code : nat).

#[global] Instance Error_eq_dec : EqDecision Error.
Proof. solve_decision. Defined.

(** ** Objects *)

Definition DeviceId := nat.
Definition CallbackId := nat.

(** What the hardware reports about a device and never changes. *)
Record DeviceCapabilities := {
  deviceType : DeviceType.t;
  position : Position.t;
  (** [lockForConfiguration()] throws this error, if any *)
  lockFailure : option nat;
  (** [AVCaptureDeviceInput(device:)] throws this error, if any *)
  inputFailure : option nat;
  supportedFocusModes : list FocusMode.t;
  supportedExposureModes : list ExposureMode.t;
  supportedTorchModes : list TorchMode.t;
  supportedWhiteBalanceModes : list WhiteBalanceMode.t;
  hasFlash : bool;
  hasTorch : bool;
  isTorchAvailable : bool;
  (** [activeFormat.videoMaxZoomFactor] *)
  videoMaxZoomFactor : Q;
  (** [activeFormat.supportedSizes], as (width, height) *)
  supportedSizes : list (Z * Z);
  minExposureTargetBias : Q;
  maxExposureTargetBias : Q
}.

(** An [AVCaptureDevice] object. *)
Module Device.
Record t := {
  caps : DeviceCapabilities;
  (** outstanding [lockForConfiguration] calls *)
  configurationLocks : nat;
  focusMode : FocusMode.t;
  exposureMode : ExposureMode.t;
  whiteBalanceMode : WhiteBalanceMode.t;
  exposureTargetBias : Q;
  torchMode : TorchMode.t;
  videoZoomFactor : Q
}.
End Device.

(** An [AVCaptureDeviceInput] object: its identity and its device. *)
Record DeviceInput := {
  inputId : nat;
  inputDevice : DeviceId
}.

#[global] Instance DeviceInput_eq_dec : EqDecision DeviceInput.
Proof. solve_decision. Defined.

(** An [AVCaptureSession] object. *)
Record Session := {
  isRunning : bool;
  sessionPreset : SessionPreset.t;
  inputs : list DeviceInput;
  (** whether the controller's photo output is among the outputs *)
  hasPhotoOutput : bool;
  (** [beginConfiguration] calls not yet matched by [commitConfiguration] *)
  openConfigurations : nat
}.

(** The controller's [AVCapturePhotoOutput]. *)
Record PhotoOutput := {
  (** reported by the hardware for the attached device *)
  supportedFlashModes : list FlashMode.t;
  isHighResolutionCaptureEnabled : bool;
  preparedJpegSettings : bool;
  photoSettingsForSceneMonitoring : option FlashMode.t
}.

Record PreviewLayer := {
  hasSession : bool;
  videoGravity : VideoGravity.t
}.

(** A decoded image: its content and whether it is upright. *)
Record UIImage := {
  pixels : nat;
  upright : bool
}.

(** Modelled from the spec: [fixedOrientation] is an extension of [UIImage]
    that is not part of the sources; the spec says the orientation of the
    returned image is normalized to upright. *)
Definition fixedOrientation (i : UIImage) : UIImage :=
  {| pixels := pixels i; upright := true |}.

(** An [AVCapturePhoto]: [fileDataRepresentation()] may be nil, and the
    data may fail to decode ([UIImage(data:)] is nil). *)
Record AVCapturePhoto := {
  fileDataRepresentation : option (option UIImage)
}.

Record UIPinchGestureRecognizer := {
  state : GestureState.t;
  scale : Q
}.

(** ** The trace of outward effects *)

Inductive Event :=
  (** the completion handler of [prepare] is called *)
  | PrepareCompleted (handler : CallbackId) (error : option Error)
  (** a capture completion block is called *)
  | CaptureCompleted (block : CallbackId) (image : option UIImage)
      (error : option Error)
  (** [photoOutput.capturePhoto(with:delegate:)] with these flash settings *)
  | CapturePhoto (flash : FlashMode.t)
  | DebugPrint (error : Error).

(** ** The controller and its world *)

Record CameraController := {
  captureSession : option Session;
  photoOutput : PhotoOutput;
  photoCaptureCompletionBlock : option CallbackId;
  sampleBufferCaptureCompletionBlock : option CallbackId;
  previewLayer : PreviewLayer;
  frontCamera : option DeviceId;
  rearCamera : option DeviceId;
  currentCamera : option DeviceId;
  cameraInput : option DeviceInput;
  flashMode : FlashMode.t;
  (** used for manually zooming in and out via pinch gesture *)
  videoZoomFactor : Q
}.

Record World := {
  self : CameraController;
  (** the [AVCaptureDevice] objects, by identity *)
  devices : gmap DeviceId Device.t;
  (** the order in which the system looks devices up *)
  discoverable : list DeviceId;
  (** [AVCaptureSession.canAddInput] and [canAddOutput], as the framework
      answers them *)
  canAddInput : Session -> DeviceInput -> bool;
  canAddOutput : Session -> bool;
  (** identity of the next [AVCaptureDeviceInput] created *)
  nextInputId : nat;
  events : list Event
}.

(** ** Field updates *)

Definition setLocks (n : nat) (d : Device.t) : Device.t :=
  {| Device.caps := Device.caps d; Device.configurationLocks := n;
     Device.focusMode := Device.focusMode d;
     Device.exposureMode := Device.exposureMode d;
     Device.whiteBalanceMode := Device.whiteBalanceMode d;
     Device.exposureTargetBias := Device.exposureTargetBias d;
     Device.torchMode := Device.torchMode d;
     Device.videoZoomFactor := Device.videoZoomFactor d |}.

Definition setFocusMode (m : FocusMode.t) (d : Device.t) : Device.t :=
  {| Device.caps := Device.caps d;
     Device.configurationLocks := Device.configurationLocks d;
     Device.focusMode := m;
     Device.exposureMode := Device.exposureMode d;
     Device.whiteBalanceMode := Device.whiteBalanceMode d;
     Device.exposureTargetBias := Device.exposureTargetBias d;
     Device.torchMode := Device.torchMode d;
     Device.videoZoomFactor := Device.videoZoomFactor d |}.

Definition setExposureMode (m : ExposureMode.t) (d : Device.t) : Device.t :=
  {| Device.caps := Device.caps d;
     Device.configurationLocks := Device.configurationLocks d;
     Device.focusMode := Device.focusMode d;
     Device.exposureMode := m;
     Device.whiteBalanceMode := Device.whiteBalanceMode d;
     Device.exposureTargetBias := Device.exposureTargetBias d;
     Device.torchMode := Device.torchMode d;
     Device.videoZoomFactor := Device.videoZoomFactor d |}.

Definition setTorch (m : TorchMode.t) (d : Device.t) : Device.t :=
  {| Device.caps := Device.caps d;
     Device.configurationLocks := Device.configurationLocks d;
     Device.focusMode := Device.focusMode d;
     Device.exposureMode := Device.exposureMode d;
     Device.whiteBalanceMode := Device.whiteBalanceMode d;
     Device.exposureTargetBias := Device.exposureTargetBias d;
     Device.torchMode := m;
     Device.videoZoomFactor := Device.videoZoomFactor d |}.

Definition setZoom (z : Q) (d : Device.t) : Device.t :=
  {| Device.caps := Device.caps d;
     Device.configurationLocks := Device.configurationLocks d;
     Device.focusMode := Device.focusMode d;
     Device.exposureMode := Device.exposureMode d;
     Device.whiteBalanceMode := Device.whiteBalanceMode d;
     Device.exposureTargetBias := Device.exposureTargetBias d;
     Device.torchMode := Device.torchMode d;
     Device.videoZoomFactor := z |}.

Definition setRunning (b : bool) (s : Session) : Session :=
  {| isRunning := b; sessionPreset := sessionPreset s; inputs := inputs s;
     hasPhotoOutput := hasPhotoOutput s;
     openConfigurations := openConfigurations s |}.

Definition setPreset (p : SessionPreset.t) (s : Session) : Session :=
  {| isRunning := isRunning s; sessionPreset := p; inputs := inputs s;
     hasPhotoOutput := hasPhotoOutput s;
     openConfigurations := openConfigurations s |}.

Definition setInputs (l : list DeviceInput) (s : Session) : Session :=
  {| isRunning := isRunning s; sessionPreset := sessionPreset s; inputs := l;
     hasPhotoOutput := hasPhotoOutput s;
     openConfigurations := openConfigurations s |}.

Definition setHasPhotoOutput (b : bool) (s : Session) : Session :=
  {| isRunning := isRunning s; sessionPreset := sessionPreset s;
     inputs := inputs s; hasPhotoOutput := b;
     openConfigurations := openConfigurations s |}.

Definition setOpenConfigurations (n : nat) (s : Session) : Session :=
  {| isRunning := isRunning s; sessionPreset := sessionPreset s;
     inputs := inputs s; hasPhotoOutput := hasPhotoOutput s;
     openConfigurations := n |}.

Definition setCaptureSession (v : option Session) (c : CameraController) :=
  {| captureSession := v; photoOutput := photoOutput c;
     photoCaptureCompletionBlock := photoCaptureCompletionBlock c;
     sampleBufferCaptureCompletionBlock := sampleBufferCaptureCompletionBlock c;
     previewLayer := previewLayer c; frontCamera := frontCamera c;
     rearCamera := rearCamera c; currentCamera := currentCamera c;
     cameraInput := cameraInput c; flashMode := flashMode c;
     videoZoomFactor := videoZoomFactor c |}.

Definition setPhotoOutput (v : PhotoOutput) (c : CameraController) :=
  {| captureSession := captureSession c; photoOutput := v;
     photoCaptureCompletionBlock := photoCaptureCompletionBlock c;
     sampleBufferCaptureCompletionBlock := sampleBufferCaptureCompletionBlock c;
     previewLayer := previewLayer c; frontCamera := frontCamera c;
     rearCamera := rearCamera c; currentCamera := currentCamera c;
     cameraInput := cameraInput c; flashMode := flashMode c;
     videoZoomFactor := videoZoomFactor c |}.

Definition setPhotoBlock (v : option CallbackId) (c : CameraController) :=
  {| captureSession := captureSession c; photoOutput := photoOutput c;
     photoCaptureCompletionBlock := v;
     sampleBufferCaptureCompletionBlock := sampleBufferCaptureCompletionBlock c;
     previewLayer := previewLayer c; frontCamera := frontCamera c;
     rearCamera := rearCamera c; currentCamera := currentCamera c;
     cameraInput := cameraInput c; flashMode := flashMode c;
     videoZoomFactor := videoZoomFactor c |}.

Definition setSampleBlock (v : option CallbackId) (c : CameraController) :=
  {| captureSession := captureSession c; photoOutput := photoOutput c;
     photoCaptureCompletionBlock := photoCaptureCompletionBlock c;
     sampleBufferCaptureCompletionBlock := v;
     previewLayer := previewLayer c; frontCamera := frontCamera c;
     rearCamera := rearCamera c; currentCamera := currentCamera c;
     cameraInput := cameraInput c; flashMode := flashMode c;
     videoZoomFactor := videoZoomFactor c |}.

Definition setPreviewLayer (v : PreviewLayer) (c : CameraController) :=
  {| captureSession := captureSession c; photoOutput := photoOutput c;
     photoCaptureCompletionBlock := photoCaptureCompletionBlock c;
     sampleBufferCaptureCompletionBlock := sampleBufferCaptureCompletionBlock c;
     previewLayer := v; frontCamera := frontCamera c;
     rearCamera := rearCamera c; currentCamera := currentCamera c;
     cameraInput := cameraInput c; flashMode := flashMode c;
     videoZoomFactor := videoZoomFactor c |}.

Definition setFrontCamera (v : option DeviceId) (c : CameraController) :=
  {| captureSession := captureSession c; photoOutput := photoOutput c;
     photoCaptureCompletionBlock := photoCaptureCompletionBlock c;
     sampleBufferCaptureCompletionBlock := sampleBufferCaptureCompletionBlock c;
     previewLayer := previewLayer c; frontCamera := v;
     rearCamera := rearCamera c; currentCamera := currentCamera c;
     cameraInput := cameraInput c; flashMode := flashMode c;
     videoZoomFactor := videoZoomFactor c |}.

Definition setRearCamera (v : option DeviceId) (c : CameraController) :=
  {| captureSession := captureSession c; photoOutput := photoOutput c;
     photoCaptureCompletionBlock := photoCaptureCompletionBlock c;
     sampleBufferCaptureCompletionBlock := sampleBufferCaptureCompletionBlock c;
     previewLayer := previewLayer c; frontCamera := frontCamera c;
     rearCamera := v; currentCamera := currentCamera c;
     cameraInput := cameraInput c; flashMode := flashMode c;
     videoZoomFactor := videoZoomFactor c |}.

Definition setCurrentCamera (v : option DeviceId) (c : CameraController) :=
  {| captureSession := captureSession c; photoOutput := photoOutput c;
     photoCaptureCompletionBlock := photoCaptureCompletionBlock c;
     sampleBufferCaptureCompletionBlock := sampleBufferCaptureCompletionBlock c;
     previewLayer := previewLayer c; frontCamera := frontCamera c;
     rearCamera := rearCamera c; currentCamera := v;
     cameraInput := cameraInput c; flashMode := flashMode c;
     videoZoomFactor := videoZoomFactor c |}.

Definition setCameraInput (v : option DeviceInput) (c : CameraController) :=
  {| captureSession := captureSession c; photoOutput := photoOutput c;
     photoCaptureCompletionBlock := photoCaptureCompletionBlock c;
     sampleBufferCaptureCompletionBlock := sampleBufferCaptureCompletionBlock c;
     previewLayer := previewLayer c; frontCamera := frontCamera c;
     rearCamera := rearCamera c; currentCamera := currentCamera c;
     cameraInput := v; flashMode := flashMode c;
     videoZoomFactor := videoZoomFactor c |}.

Definition setFlash (v : FlashMode.t) (c : CameraController) :=
  {| captureSession := captureSession c; photoOutput := photoOutput c;
     photoCaptureCompletionBlock := photoCaptureCompletionBlock c;
     sampleBufferCaptureCompletionBlock := sampleBufferCaptureCompletionBlock c;
     previewLayer := previewLayer c; frontCamera := frontCamera c;
     rearCamera := rearCamera c; currentCamera := currentCamera c;
     cameraInput := cameraInput c; flashMode := v;
     videoZoomFactor := videoZoomFactor c |}.

Definition setVideoZoomFactor (v : Q) (c : CameraController) :=
  {| captureSession := captureSession c; photoOutput := photoOutput c;
     photoCaptureCompletionBlock := photoCaptureCompletionBlock c;
     sampleBufferCaptureCompletionBlock := sampleBufferCaptureCompletionBlock c;
     previewLayer := previewLayer c; frontCamera := frontCamera c;
     rearCamera := rearCamera c; currentCamera := currentCamera c;
     cameraInput := cameraInput c; flashMode := flashMode c;
     videoZoomFactor := v |}.

Definition setSelf (c : CameraController) (w : World) : World :=
  {| self := c; devices := devices w; discoverable := discoverable w;
     canAddInput := canAddInput w; canAddOutput := canAddOutput w;
     nextInputId := nextInputId w; events := events w |}.

Definition setDevices (m : gmap DeviceId Device.t) (w : World) : World :=
  {| self := self w; devices := m; discoverable := discoverable w;
     canAddInput := canAddInput w; canAddOutput := canAddOutput w;
     nextInputId := nextInputId w; events := events w |}.

Definition setNextInputId (n : nat) (w : World) : World :=
  {| self := self w; devices := devices w; discoverable := discoverable w;
     canAddInput := canAddInput w; canAddOutput := canAddOutput w;
     nextInputId := n; events := events w |}.

Definition setEvents (l : list Event) (w : World) : World :=
  {| self := self w; devices := devices w; discoverable := discoverable w;
     canAddInput := canAddInput w; canAddOutput := canAddOutput w;
     nextInputId := nextInputId w; events := l |}.

(** ** The monad of controller methods

    A method runs on a world and returns normally or throws; what it did to
    the world before throwing stays done. *)

Inductive Result (A : Type) :=
  | Ok (a : A)
  | Throw (e : Error).
Arguments Ok {A} a.
Arguments Throw {A} e.

Definition M (A : Type) : Type := World -> Result A * World.

Definition ret {A} (a : A) : M A := fun w => (Ok a, w).

Definition bind {A B} (m : M A) (k : A -> M B) : M B :=
  fun w =>
    match m w with
    | (Ok a, w') => k a w'
    | (Throw e, w') => (Throw e, w')
    end.

Definition throw {A} (e : CameraControllerError) : M A :=
  fun w => (Throw (ControllerError e), w).

Definition rethrow {A} (e : Error) : M A := fun w => (Throw e, w).

(** [do { try m } catch { ... }] as a value: the outcome of [m]. *)
Definition attempt {A} (m : M A) : M (Result A) :=
  fun w => let (r, w') := m w in (Ok r, w').

(** [defer { cleanup }]: [cleanup] runs when [body] leaves, either way. *)
Definition defer {A} (cleanup : World -> World) (body : M A) : M A :=
  fun w => let (r, w') := body w in (r, cleanup w').

Definition gets {A} (f : World -> A) : M A := fun w => (Ok (f w), w).

Definition modify (f : World -> World) : M unit := fun w => (Ok tt, f w).

Definition exec {A} (m : M A) (w : World) : World := snd (m w).
Definition outcome {A} (m : M A) (w : World) : Result A := fst (m w).

Declare Scope ctl_scope.
Delimit Scope ctl_scope with ctl.
Notation "x <- m ;; k" := (bind m (fun x => k))
  (at level 100, m at next level, right associativity) : ctl_scope.
Notation "m ;; k" := (bind m (fun _ => k))
  (at level 100, right associativity) : ctl_scope.
Open Scope ctl_scope.

(** ** Primitive effects *)

Definition this {A} (f : CameraController -> A) : M A :=
  gets (fun w => f (self w)).

Definition assign (f : CameraController -> CameraController) : M unit :=
  modify (fun w => setSelf (f (self w)) w).

Definition emit (e : Event) : World -> World :=
  fun w => setEvents (events w ++ [e]) w.

(** Calling an optional completion block: [block?(image, error)]. *)
Definition call (block : option CallbackId) (image : option UIImage)
    (error : option Error) : World -> World :=
  match block with
  | Some b => emit (CaptureCompleted b image error)
  | None => fun w => w
  end.

#[global] Instance Device_inhabited : Inhabited Device.t :=
  populate
    {| Device.caps :=
         {| deviceType := DeviceType.other; position := Position.unspecified;
            lockFailure := None; inputFailure := None;
            supportedFocusModes := []; supportedExposureModes := [];
            supportedTorchModes := []; supportedWhiteBalanceModes := [];
            hasFlash := false; hasTorch := false; isTorchAvailable := false;
            videoMaxZoomFactor := 1; supportedSizes := [];
            minExposureTargetBias := 0; maxExposureTargetBias := 0 |};
       Device.configurationLocks := 0;
       Device.focusMode := FocusMode.locked;
       Device.exposureMode := ExposureMode.locked;
       Device.whiteBalanceMode := WhiteBalanceMode.locked;
       Device.exposureTargetBias := 0;
       Device.torchMode := TorchMode.off;
       Device.videoZoomFactor := 1 |}.

(** The object behind a device reference. *)
Definition device (id : DeviceId) (w : World) : Device.t := devices w !!! id.

Definition updateDevice (id : DeviceId) (f : Device.t -> Device.t)
    : World -> World :=
  fun w => setDevices (<[id := f (device id w)]> (devices w)) w.

(** [AVCaptureDevice.default(type, for: .video, position:)]: the first
    device of that type at that position, if the hardware has one. *)
Definition AVCaptureDevice_default (ty : DeviceType.t) (pos : Position.t)
    (w : World) : option DeviceId :=
  List.find
    (fun id =>
       match devices w !! id with
       | Some d =>
           bool_decide (deviceType (Device.caps d) = ty) &&
           bool_decide (position (Device.caps d) = pos)
       | None => false
       end)
    (discoverable w).

Definition lockForConfiguration (id : DeviceId) : M unit :=
  d <- gets (device id);;
  match lockFailure (Device.caps d) with
  | Some code => rethrow (FrameworkError code)
  | None =>
      modify (updateDevice id
                (fun d => setLocks (S (Device.configurationLocks d)) d))
  end.

Definition unlockForConfiguration (id : DeviceId) : World -> World :=
  updateDevice id (fun d => setLocks (pred (Device.configurationLocks d)) d).

(** [AVCaptureDeviceInput(device:)] *)
Definition AVCaptureDeviceInput_init (id : DeviceId) : M DeviceInput :=
  d <- gets (device id);;
  match inputFailure (Device.caps d) with
  | Some code => rethrow (FrameworkError code)
  | None =>
      n <- gets nextInputId;;
      modify (setNextInputId (S n));;
      ret {| inputId := n; inputDevice := id |}
  end.

(** Methods of the session object [self.captureSession] refers to. *)
Definition withSession (f : Session -> Session) : M unit :=
  assign (fun c => setCaptureSession (f <$> captureSession c) c).

Definition askSession (q : World -> Session -> bool) : M bool :=
  gets (fun w => from_option (q w) false (captureSession (self w))).

Definition beginConfiguration (s : Session) : Session :=
  setOpenConfigurations (S (openConfigurations s)) s.

Definition commitConfiguration (s : Session) : Session :=
  setOpenConfigurations (pred (openConfigurations s)) s.

Definition addInput (i : DeviceInput) (s : Session) : Session :=
  setInputs (inputs s ++ [i]) s.

Definition removeInput (i : DeviceInput) (s : Session) : Session :=
  setInputs (List.filter (fun j => negb (bool_decide (j = i))) (inputs s)) s.

Definition newSession : Session :=
  {| isRunning := false; sessionPreset := SessionPreset.high; inputs := [];
     hasPhotoOutput := false; openConfigurations := 0 |}.

(** [guard let captureSession = self.captureSession, captureSession.isRunning] *)
Definition sessionIsRunning (c : CameraController) : bool :=
  from_option isRunning false (captureSession c).

(** ** The controller's methods *)

Definition initializeCameraDevices (cameraPosition : CameraPosition) : M unit :=
  triple <- gets (AVCaptureDevice_default DeviceType.builtInTripleCamera
                    Position.back);;
  match triple with
  | Some rearCamera => assign (setRearCamera (Some rearCamera))
  | None =>
      wide <- gets (AVCaptureDevice_default DeviceType.builtInWideAngleCamera
                      Position.back);;
      assign (setRearCamera wide)
  end;;
  found <- gets (AVCaptureDevice_default DeviceType.builtInWideAngleCamera
                   Position.front);;
  match found with
  | Some frontCamera => assign (setFrontCamera (Some frontCamera))
  | None => ret tt
  end;;
  c <- this id;;
  if bool_decide (cameraPosition = rear) && bool_decide (rearCamera c <> None)
     || bool_decide (cameraPosition = front)
        && bool_decide (frontCamera c <> None)
  then
    assign (setCurrentCamera
              (if bool_decide (cameraPosition = rear) then rearCamera c
               else frontCamera c))
  else throw noCamerasAvailable.

Definition configureCameraSettings : M unit :=
  current <- this currentCamera;;
  match current with
  | None => throw noCamerasAvailable
  | Some cameraDevice =>
      lockForConfiguration cameraDevice;;
      defer (unlockForConfiguration cameraDevice)
        (d <- gets (device cameraDevice);;
         (if bool_decide (FocusMode.continuousAutoFocus
                            ∈ supportedFocusModes (Device.caps d))
          then modify (updateDevice cameraDevice
                         (setFocusMode FocusMode.continuousAutoFocus))
          else ret tt);;
         (if bool_decide (ExposureMode.continuousAutoExposure
                            ∈ supportedExposureModes (Device.caps d))
          then modify (updateDevice cameraDevice
                         (setExposureMode ExposureMode.continuousAutoExposure))
          else ret tt);;
         (if bool_decide (deviceType (Device.caps d)
                          = DeviceType.builtInTripleCamera)
          then modify (updateDevice cameraDevice (setZoom 2))
          else ret tt))
  end.

Definition initializeCameraInput : M unit :=
  session <- this captureSession;;
  match session with
  | None => throw captureSessionIsMissing
  | Some _ =>
      current <- this currentCamera;;
      match current with
      | None => throw noCamerasAvailable
      | Some camera =>
          r <- attempt
                 (cameraInput <- AVCaptureDeviceInput_init camera;;
                  ok <- askSession (fun w s => canAddInput w s cameraInput);;
                  (if ok then withSession (addInput cameraInput) else ret tt);;
                  assign (setCameraInput (Some cameraInput)));;
          match r with
          | Ok _ => ret tt
          | Throw _ => throw noCamerasAvailable
          end
      end
  end.

Definition prepare (cameraPosition : option CameraPosition)
    (isHighResolutionPhotoEnabled : bool) (completionHandler : CallbackId)
    : M unit :=
  assign (setCaptureSession (Some newSession));;
  (if isHighResolutionPhotoEnabled
   then withSession (setPreset SessionPreset.photo) else ret tt);;
  assign (setPreviewLayer
            {| hasSession := true;
               videoGravity := VideoGravity.resizeAspectFill |});;
  r <- attempt (initializeCameraDevices (default rear cameraPosition);;
                initializeCameraInput);;
  match r with
  | Throw error => modify (emit (PrepareCompleted completionHandler (Some error)))
  | Ok _ =>
      assign (fun c =>
        setPhotoOutput
          {| supportedFlashModes := supportedFlashModes (photoOutput c);
             isHighResolutionCaptureEnabled := isHighResolutionPhotoEnabled;
             preparedJpegSettings := true;
             photoSettingsForSceneMonitoring :=
               photoSettingsForSceneMonitoring (photoOutput c) |} c);;
      ok <- askSession canAddOutput;;
      (if ok then withSession (setHasPhotoOutput true) else ret tt);;
      withSession (setRunning true);;
      r <- attempt configureCameraSettings;;
      match r with
      | Ok _ => modify (emit (PrepareCompleted completionHandler None))
      | Throw error =>
          modify (emit (PrepareCompleted completionHandler (Some error)))
      end
  end.

Definition stop : M unit := withSession (setRunning false).

(** The two local functions of [switchCameras] differ in the camera they
    switch to. *)
Definition switchTo (target : CameraController -> option DeviceId) : M unit :=
  c <- this id;;
  session <- this captureSession;;
  match cameraInput c, target c with
  | Some cameraInput, Some camera =>
      if bool_decide (cameraInput ∈ from_option inputs [] session) then
        withSession (removeInput cameraInput);;
        newCameraInput <- AVCaptureDeviceInput_init camera;;
        ok <- askSession (fun w s => canAddInput w s newCameraInput);;
        if ok then
          withSession (addInput newCameraInput);;
          assign (setCameraInput (Some newCameraInput));;
          assign (setCurrentCamera (Some camera))
        else throw invalidOperation
      else throw invalidOperation
  | _, _ => throw invalidOperation
  end.

Definition switchToFrontCamera : M unit := switchTo frontCamera.
Definition switchToRearCamera : M unit := switchTo rearCamera.

Definition switchCameras : M unit :=
  c <- this id;;
  if sessionIsRunning c then
    match currentCamera c with
    | None => throw noCamerasAvailable
    | Some dev =>
        withSession beginConfiguration;;
        d <- gets (device dev);;
        let finish :=
          (_ <- attempt configureCameraSettings;;
           withSession commitConfiguration) in
        match position (Device.caps d) with
        | Position.front => switchToRearCamera;; finish
        | Position.back => switchToFrontCamera;; finish
        | Position.unspecified => ret tt
        end
    end
  else throw captureSessionIsMissing.

Definition captureImage (completion : CallbackId) : M unit :=
  c <- this id;;
  if sessionIsRunning c then
    modify (emit (CapturePhoto (flashMode c)));;
    assign (setPhotoBlock (Some completion))
  else
    modify (emit (CaptureCompleted completion None
                    (Some (ControllerError captureSessionIsMissing)))).

Definition captureSample (completion : CallbackId) : M unit :=
  c <- this id;;
  if sessionIsRunning c then assign (setSampleBlock (Some completion))
  else
    modify (emit (CaptureCompleted completion None
                    (Some (ControllerError captureSessionIsMissing)))).

(** *** Getters

    The string forms of the exposure and white-balance modes ([rawValue])
    are declared outside the sources; they are parameters here. *)

Section Getters.
Variable exposureModeRawValue : ExposureMode.t -> string.
Variable whiteBalanceModeRawValue : WhiteBalanceMode.t -> string.

Definition getSupportedPictureSizes (w : World) : list (gmap string Z) :=
  match currentCamera (self w) with
  | None => []
  | Some dev =>
      (fun size : Z * Z =>
         <["width" := fst size]> (<["height" := snd size]> ∅))
        <$> supportedSizes (Device.caps (device dev w))
  end.

Definition getExposureCompensation (w : World) : Q :=
  match currentCamera (self w) with
  | None => 0
  | Some dev => Device.exposureTargetBias (device dev w)
  end.

Definition getExposureCompensationRange (w : World) : list Q :=
  match currentCamera (self w) with
  | None => [0; 0]%Q
  | Some dev =>
      [minExposureTargetBias (Device.caps (device dev w));
       maxExposureTargetBias (Device.caps (device dev w))]
  end.

Definition getExposureMode (w : World) : string :=
  match currentCamera (self w) with
  | None => "unknown"
  | Some dev => exposureModeRawValue (Device.exposureMode (device dev w))
  end.

Definition getWhiteBalanceMode (w : World) : string :=
  match currentCamera (self w) with
  | None => "unknown"
  | Some dev =>
      whiteBalanceModeRawValue (Device.whiteBalanceMode (device dev w))
  end.

Definition getSupportedWhiteBalanceModes (w : World) : list string :=
  match currentCamera (self w) with
  | None => []
  | Some dev =>
      whiteBalanceModeRawValue
        <$> supportedWhiteBalanceModes (Device.caps (device dev w))
  end.
End Getters.

Definition flashModeValue (m : FlashMode.t) : option string :=
  match m with
  | FlashMode.off => Some "off"
  | FlashMode.on => Some "on"
  | FlashMode.auto => Some "auto"
  end.

Definition getSupportedFlashModes : M (list string) :=
  current <- this currentCamera;;
  match current with
  | None => throw noCamerasAvailable
  | Some dev =>
      d <- gets (device dev);;
      modes <- this (fun c => supportedFlashModes (photoOutput c));;
      ret ((if hasFlash (Device.caps d) then omap flashModeValue modes else [])
           ++ (if hasTorch (Device.caps d) then ["torch"] else []))
  end.

(** *** Flash and torch *)

Definition setFlashMode (mode : FlashMode.t) : M unit :=
  c <- this id;;
  match currentCamera c with
  | None => throw noCamerasAvailable
  | Some dev =>
      if negb (bool_decide (mode ∈ supportedFlashModes (photoOutput c)))
      then ret tt
      else
        r <- attempt
               (lockForConfiguration dev;;
                d <- gets (device dev);;
                (if hasTorch (Device.caps d)
                    && isTorchAvailable (Device.caps d)
                    && bool_decide (Device.torchMode d = TorchMode.on)
                 then modify (updateDevice dev (setTorch TorchMode.off))
                 else ret tt);;
                assign (setFlash mode);;
                assign (fun c =>
                  setPhotoOutput
                    {| supportedFlashModes := supportedFlashModes (photoOutput c);
                       isHighResolutionCaptureEnabled :=
                         isHighResolutionCaptureEnabled (photoOutput c);
                       preparedJpegSettings :=
                         preparedJpegSettings (photoOutput c);
                       photoSettingsForSceneMonitoring := Some mode |} c);;
                modify (unlockForConfiguration dev));;
        match r with
        | Ok _ => ret tt
        | Throw _ => throw invalidOperation
        end
  end.

Definition setTorchMode : M unit :=
  current <- this currentCamera;;
  match current with
  | None => throw invalidOperation
  | Some dev =>
      d <- gets (device dev);;
      if hasTorch (Device.caps d) && isTorchAvailable (Device.caps d) then
        r <- attempt
               (lockForConfiguration dev;;
                modify (updateDevice dev
                  (setTorch
                     (if bool_decide (TorchMode.on
                                        ∈ supportedTorchModes (Device.caps d))
                      then TorchMode.on
                      else if bool_decide (TorchMode.auto
                                        ∈ supportedTorchModes (Device.caps d))
                      then TorchMode.auto
                      else TorchMode.off)));;
                modify (unlockForConfiguration dev));;
        match r with
        | Ok _ => ret tt
        | Throw _ => throw invalidOperation
        end
      else throw invalidOperation
  end.

(** *** The photo delegate: the hardware reports a finished capture *)

Definition photoOutput_didFinishProcessingPhoto (photo : AVCapturePhoto)
    (error : option Error) : M unit :=
  block <- this photoCaptureCompletionBlock;;
  match error with
  | Some error => modify (call block None (Some error))
  | None =>
      match fileDataRepresentation photo with
      | Some (Some image) => modify (call block (Some (fixedOrientation image)) None)
      | _ => modify (call block None (Some (ControllerError unknown)))
      end
  end.

(** *** The pinch gesture *)

(** Swift's [min] and [max] on comparable values. *)
Definition swiftMin (x y : Q) : Q := if Qle_bool x y then x else y.
Definition swiftMax (x y : Q) : Q := if Qle_bool x y then y else x.

Definition minMaxZoom (d : Device.t) (factor : Q) : Q :=
  swiftMax 1 (swiftMin factor (videoMaxZoomFactor (Device.caps d))).

Definition update (dev : DeviceId) (factor : Q) : M unit :=
  r <- attempt
         (lockForConfiguration dev;;
          defer (unlockForConfiguration dev)
            (modify (updateDevice dev (setZoom factor))));;
  match r with
  | Ok _ => ret tt
  | Throw error => modify (emit (DebugPrint error))
  end.

Definition handlePinch (pinch : UIPinchGestureRecognizer) : M unit :=
  current <- this currentCamera;;
  match current with
  | None => ret tt
  | Some dev =>
      d <- gets (device dev);;
      match state pinch with
      | GestureState.began | GestureState.changed =>
          let newScaleFactor := minMaxZoom d (scale pinch) in
          update dev newScaleFactor
      | GestureState.ended =>
          assign (setVideoZoomFactor (Device.videoZoomFactor d))
      | _ => ret tt
      end
  end.

(** ** Sample hardware

    A freshly constructed controller, and handsets with different camera
    sets: device 0 is the rear multi-lens unit, device 1 the rear wide-angle
    camera, device 2 the front camera. *)

Definition init (flashModes : list FlashMode.t) : CameraController :=
  {| captureSession := None;
     photoOutput :=
       {| supportedFlashModes := flashModes;
          isHighResolutionCaptureEnabled := false;
          preparedJpegSettings := false;
          photoSettingsForSceneMonitoring := None |};
     photoCaptureCompletionBlock := None;
     sampleBufferCaptureCompletionBlock := None;
     previewLayer :=
       {| hasSession := false; videoGravity := VideoGravity.resizeAspect |};
     frontCamera := None; rearCamera := None; currentCamera := None;
     cameraInput := None;
     flashMode := FlashMode.off;
     videoZoomFactor := 1 |}.

Definition camera (ty : DeviceType.t) (pos : Position.t) (torch : bool)
    : Device.t :=
  {| Device.caps :=
       {| deviceType := ty; position := pos;
          lockFailure := None; inputFailure := None;
          supportedFocusModes :=
            [FocusMode.locked; FocusMode.continuousAutoFocus];
          supportedExposureModes :=
            [ExposureMode.locked; ExposureMode.continuousAutoExposure];
          supportedTorchModes := if torch then [TorchMode.off; TorchMode.on] else [];
          supportedWhiteBalanceModes :=
            [WhiteBalanceMode.locked;
             WhiteBalanceMode.continuousAutoWhiteBalance];
          hasFlash := torch; hasTorch := torch; isTorchAvailable := torch;
          videoMaxZoomFactor := 10;
          supportedSizes := [(4032, 3024); (1920, 1080)]%Z;
          minExposureTargetBias := -8; maxExposureTargetBias := 8 |};
     Device.configurationLocks := 0;
     Device.focusMode := FocusMode.locked;
     Device.exposureMode := ExposureMode.locked;
     Device.whiteBalanceMode := WhiteBalanceMode.continuousAutoWhiteBalance;
     Device.exposureTargetBias := 0;
     Device.torchMode := TorchMode.off;
     Device.videoZoomFactor := 1 |}.

Definition tripleBack := camera DeviceType.builtInTripleCamera Position.back true.
Definition wideBack := camera DeviceType.builtInWideAngleCamera Position.back true.
Definition wideFront := camera DeviceType.builtInWideAngleCamera Position.front false.

(** A session takes an input unless it already has it. *)
Definition acceptsInput (s : Session) (i : DeviceInput) : bool :=
  negb (bool_decide (i ∈ inputs s)).

Definition handset (devs : gmap DeviceId Device.t) : World :=
  {| self := init [FlashMode.off; FlashMode.on];
     devices := devs;
     discoverable := [0; 1; 2];
     canAddInput := acceptsInput;
     canAddOutput := fun s => negb (hasPhotoOutput s);
     nextInputId := 0;
     events := [] |}.

Definition multiLensPhone : World :=
  handset (<[0 := tripleBack]> (<[1 := wideBack]> (<[2 := wideFront]> ∅))).
Definition singleLensPhone : World :=
  handset (<[1 := wideBack]> (<[2 := wideFront]> ∅)).
Definition frontOnlyTablet : World :=
  handset (<[2 := wideFront]> ∅).

(** ** What the methods compute, in closed form *)

(** The baseline configuration [configureCameraSettings] leaves on a
    device. *)
Definition baseline (d : Device.t) : Device.t :=
  let d1 :=
    if bool_decide (FocusMode.continuousAutoFocus
                      ∈ supportedFocusModes (Device.caps d))
    then setFocusMode FocusMode.continuousAutoFocus d else d in
  let d2 :=
    if bool_decide (ExposureMode.continuousAutoExposure
                      ∈ supportedExposureModes (Device.caps d))
    then setExposureMode ExposureMode.continuousAutoExposure d1 else d1 in
  if bool_decide (deviceType (Device.caps d) = DeviceType.builtInTripleCamera)
  then setZoom 2 d2 else d2.

(** The rear and front devices [initializeCameraDevices] retains. *)
Definition selectRear (w : World) : option DeviceId :=
  match AVCaptureDevice_default DeviceType.builtInTripleCamera
          Position.back w with
  | Some r => Some r
  | None =>
      AVCaptureDevice_default DeviceType.builtInWideAngleCamera Position.back w
  end.

Definition selectFront (w : World) : option DeviceId :=
  match AVCaptureDevice_default DeviceType.builtInWideAngleCamera
          Position.front w with
  | Some f => Some f
  | None => frontCamera (self w)
  end.

Definition selected (cameraPosition : CameraPosition) (w : World)
    : option DeviceId :=
  match cameraPosition with
  | rear => selectRear w
  | front => selectFront w
  end.

(** The error [prepare] hands to its completion handler. *)
Definition prepareError (cameraPosition : option CameraPosition) (w : World)
    : option Error :=
  match selected (default rear cameraPosition) w with
  | None => Some (ControllerError noCamerasAvailable)
  | Some dev =>
      match inputFailure (Device.caps (device dev w)),
            lockFailure (Device.caps (device dev w)) with
      | Some _, _ => Some (ControllerError noCamerasAvailable)
      | None, Some code => Some (FrameworkError code)
      | None, None => None
      end
  end.

(** How often a completion block has been called. *)
Definition fulfilments (block : CallbackId) (trace : list Event) : nat :=
  length
    (List.filter
       (fun e =>
          match e with
          | CaptureCompleted b _ _ => bool_decide (b = block)
          | _ => false
          end)
       trace).

(** ** Scenarios *)

(** A running session with a still-photo request (block 1) and a sample
    request (block 2) pending. *)
Definition pendingCaptures : World :=
  exec (prepare (Some rear) false 7;; captureImage 1;; captureSample 2)
    singleLensPhone.

(** Two still captures in flight, and the hardware delivering both
    photos. *)
Definition twoCaptures : World :=
  exec (prepare (Some rear) false 7;; captureImage 1;; captureImage 2)
    singleLensPhone.

Definition twoPhotosDelivered : World :=
  exec (photoOutput_didFinishProcessingPhoto
          {| fileDataRepresentation :=
               Some (Some {| pixels := 11; upright := false |}) |} None;;
        photoOutput_didFinishProcessingPhoto
          {| fileDataRepresentation :=
               Some (Some {| pixels := 22; upright := false |}) |} None)
    twoCaptures.

(** What [setFlashMode] does to the torch and to the controller. *)
Definition torchOffForFlash (d : Device.t) : Device.t :=
  if hasTorch (Device.caps d) && isTorchAvailable (Device.caps d)
     && bool_decide (Device.torchMode d = TorchMode.on)
  then setTorch TorchMode.off d else d.

Definition withFlash (mode : FlashMode.t) (c : CameraController)
    : CameraController :=
  setPhotoOutput
    {| supportedFlashModes := supportedFlashModes (photoOutput c);
       isHighResolutionCaptureEnabled :=
         isHighResolutionCaptureEnabled (photoOutput c);
       preparedJpegSettings := preparedJpegSettings (photoOutput c);
       photoSettingsForSceneMonitoring := Some mode |}
    (setFlash mode c).

(** The rear camera selected, session running, torch switched on. *)
Definition torchLit : World :=
  exec (prepare (Some rear) false 7;; setTorchMode) singleLensPhone.

(** Mode names as the plugin's TypeScript interface spells them
    ([CameraPreviewExposureMode], [CameraPreviewWhiteBalanceMode]). *)
Definition exposureModeName (m : ExposureMode.t) : string :=
  match m with
  | ExposureMode.locked => "lock"
  | ExposureMode.autoExpose => "auto"
  | ExposureMode.continuousAutoExposure => "continuous"
  | ExposureMode.custom => "custom"
  end.

Definition whiteBalanceModeName (m : WhiteBalanceMode.t) : string :=
  match m with
  | WhiteBalanceMode.locked => "lock"
  | WhiteBalanceMode.autoWhiteBalance => "auto"
  | WhiteBalanceMode.continuousAutoWhiteBalance => "continuous"
  end.

(** The rear camera of a single-lens phone selected and running. *)
Definition rearRunning : World :=
  exec (prepare (Some rear) false 7) singleLensPhone.

(** One pinch gesture carried through to its end on the rear camera, and a
    second gesture begun after it. *)
Definition firstPinch : World :=
  exec (handlePinch {| state := GestureState.began; scale := 1 |};;
        handlePinch {| state := GestureState.changed; scale := 1.5 |};;
        handlePinch {| state := GestureState.ended; scale := 1.5 |})
    rearRunning.

Definition secondPinch : World :=
  exec (handlePinch {| state := GestureState.began; scale := 1 |};;
        handlePinch {| state := GestureState.changed; scale := 1.2 |})
    firstPinch.

(** A tablet with a front camera only, started on that camera. *)
Definition frontRunning : World :=
  exec (prepare (Some front) false 7) frontOnlyTablet.

(** ** The controller as a state machine

    What can happen to a controller: a client calls one of its methods, the
    hardware delivers a photo to the delegate, or the user pinches. *)

Inductive Call :=
  | CallPrepare (cameraPosition : option CameraPosition)
      (isHighResolutionPhotoEnabled : bool) (completionHandler : CallbackId)
  | CallStop
  | CallSwitchCameras
  | CallCaptureImage (completion : CallbackId)
  | CallCaptureSample (completion : CallbackId)
  | CallGetSupportedFlashModes
  | CallSetFlashMode (mode : FlashMode.t)
  | CallSetTorchMode
  | PhotoDelivered (photo : AVCapturePhoto) (error : option Error)
  | Pinch (pinch : UIPinchGestureRecognizer).

Definition step (c : Call) : World -> World :=
  match c with
  | CallPrepare cameraPosition hr h => exec (prepare cameraPosition hr h)
  | CallStop => exec stop
  | CallSwitchCameras => exec switchCameras
  | CallCaptureImage completion => exec (captureImage completion)
  | CallCaptureSample completion => exec (captureSample completion)
  | CallGetSupportedFlashModes => exec getSupportedFlashModes
  | CallSetFlashMode mode => exec (setFlashMode mode)
  | CallSetTorchMode => exec setTorchMode
  | PhotoDelivered photo error =>
      exec (photoOutput_didFinishProcessingPhoto photo error)
  | Pinch pinch => exec (handlePinch pinch)
  end.

Definition run (calls : list Call) (w : World) : World :=
  fold_left (fun w c => step c w) calls w.

(** A method keeps a relation between the world it starts in and the world
    it leaves, however it exits. *)
Definition keeps (R : World -> World -> Prop) {A} (m : M A) : Prop :=
  forall w, R w (exec m w).

(** The hardware as the controller found it: the devices that can be
    discovered, what each can do, and what the framework answers. *)
Definition sameHardware (w w' : World) : Prop :=
  discoverable w' = discoverable w /\
  (forall id, Device.caps (device id w') = Device.caps (device id w)) /\
  (forall id, is_Some (devices w !! id) -> is_Some (devices w' !! id)) /\
  supportedFlashModes (photoOutput (self w'))
  = supportedFlashModes (photoOutput (self w)).

(** Every [lockForConfiguration] has been matched by an unlock. *)
Definition locksBalanced (w w' : World) : Prop :=
  forall id,
    Device.configurationLocks (device id w')
    = Device.configurationLocks (device id w).

Definition zoomAtLeastOne (w : World) : Prop :=
  forall id, (1 <= Device.videoZoomFactor (device id w))%Q.

(** A capture completion carries an image or an error, one of the two. *)
Definition oneOfImageOrError (e : Event) : Prop :=
  match e with
  | CaptureCompleted _ (Some _) None => True
  | CaptureCompleted _ None (Some _) => True
  | CaptureCompleted _ _ _ => False
  | _ => True
  end.

Definition completionsWellFormed (w : World) : Prop :=
  Forall oneOfImageOrError (events w).

Definition atMostOneInput (w : World) : Prop :=
  match captureSession (self w) with
  | Some s => length (inputs s) <= 1
  | None => True
  end.

(** A relation read as an invariant. *)
Definition preserved (P : World -> Prop) (w w' : World) : Prop := P w -> P w'.

(** The torch sub-mode [setTorchMode] picks: on, else auto, else off. *)
Definition bestTorchMode (d : Device.t) : TorchMode.t :=
  if bool_decide (TorchMode.on ∈ supportedTorchModes (Device.caps d))
  then TorchMode.on
  else if bool_decide (TorchMode.auto ∈ supportedTorchModes (Device.caps d))
  then TorchMode.auto
  else TorchMode.off.

(** The camera [switchCameras] switches to from a device at a position. *)
Definition opposite (pos : Position.t) (c : CameraController)
    : option DeviceId :=
  match pos with
  | Position.front => rearCamera c
  | _ => frontCamera c
  end.

(** ** Error descriptions

    [errorDescription] of the [LocalizedError] extension; the localized
    string is identified by its key. *)

Definition errorDescription (e : CameraControllerError) : option string :=
  match e with
  | captureSessionAlreadyRunning => Some "Capture Session is Already Running"
  | captureSessionIsMissing => Some "Capture Session is Missing"
  | inputsAreInvalid => Some "Inputs Are Invalid"
  | invalidOperation => Some "Invalid Operation"
  | noCamerasAvailable => Some "Failed to access device camera(s)"
  | unknown => Some "Unknown"
  end.

(** ** Video orientation

    [updateVideoOrientation] writes to the connection of the preview layer,
    if it has one, and to every connection of the photo output. *)

(** [UIInterfaceOrientation] *)
Module InterfaceOrientation.
Inductive t :=
  unknown | portrait | portraitUpsideDown | landscapeLeft | landscapeRight.
End InterfaceOrientation.

(** [AVCaptureVideoOrientation] *)
Module VideoOrientation.
Inductive t := portrait | portraitUpsideDown | landscapeRight | landscapeLeft.
End VideoOrientation.




(** ** More sample hardware *)

Definition withFailures (lock input : option nat) (d : Device.t) : Device.t :=
  {| Device.caps :=
       {| deviceType := deviceType (Device.caps d);
          position := position (Device.caps d);
          lockFailure := lock; inputFailure := input;
          supportedFocusModes := supportedFocusModes (Device.caps d);
          supportedExposureModes := supportedExposureModes (Device.caps d);
          supportedTorchModes := supportedTorchModes (Device.caps d);
          supportedWhiteBalanceModes :=
            supportedWhiteBalanceModes (Device.caps d);
          hasFlash := hasFlash (Device.caps d);
          hasTorch := hasTorch (Device.caps d);
          isTorchAvailable := isTorchAvailable (Device.caps d);
          videoMaxZoomFactor := videoMaxZoomFactor (Device.caps d);
          supportedSizes := supportedSizes (Device.caps d);
          minExposureTargetBias := minExposureTargetBias (Device.caps d);
          maxExposureTargetBias := maxExposureTargetBias (Device.caps d) |};
     Device.configurationLocks := Device.configurationLocks d;
     Device.focusMode := Device.focusMode d;
     Device.exposureMode := Device.exposureMode d;
     Device.whiteBalanceMode := Device.whiteBalanceMode d;
     Device.exposureTargetBias := Device.exposureTargetBias d;
     Device.torchMode := Device.torchMode d;
     Device.videoZoomFactor := Device.videoZoomFactor d |}.

(** A phone whose rear camera refuses the configuration lock. *)
Definition lockedRearPhone : World :=
  handset (<[1 := withFailures (Some 13) None wideBack]>
             (<[2 := wideFront]> ∅)).

(** A phone whose front camera cannot be opened as an input. *)
Definition brokenFrontPhone : World :=
  handset (<[1 := wideBack]>
             (<[2 := withFailures None (Some 21) wideFront]> ∅)).

(** The same two-camera phone with a framework that accepts every input,
    and with one that accepts none. *)
Definition withCanAddInput (answer : bool) (w : World) : World :=
  {| self := self w; devices := devices w; discoverable := discoverable w;
     canAddInput := fun _ _ => answer; canAddOutput := canAddOutput w;
     nextInputId := nextInputId w; events := events w |}.

Definition acceptingPhone : World := withCanAddInput true singleLensPhone.
Definition refusingPhone : World := withCanAddInput false singleLensPhone.

(** A rear camera whose torch was switched on and has since become
    unavailable, as when the device overheats. *)
Definition torchUnavailable (d : Device.t) : Device.t :=
  {| Device.caps :=
       {| deviceType := deviceType (Device.caps d);
          position := position (Device.caps d);
          lockFailure := lockFailure (Device.caps d);
          inputFailure := inputFailure (Device.caps d);
          supportedFocusModes := supportedFocusModes (Device.caps d);
          supportedExposureModes := supportedExposureModes (Device.caps d);
          supportedTorchModes := supportedTorchModes (Device.caps d);
          supportedWhiteBalanceModes :=
            supportedWhiteBalanceModes (Device.caps d);
          hasFlash := hasFlash (Device.caps d);
          hasTorch := hasTorch (Device.caps d);
          isTorchAvailable := false;
          videoMaxZoomFactor := videoMaxZoomFactor (Device.caps d);
          supportedSizes := supportedSizes (Device.caps d);
          minExposureTargetBias := minExposureTargetBias (Device.caps d);
          maxExposureTargetBias := maxExposureTargetBias (Device.caps d) |};
     Device.configurationLocks := Device.configurationLocks d;
     Device.focusMode := Device.focusMode d;
     Device.exposureMode := Device.exposureMode d;
     Device.whiteBalanceMode := Device.whiteBalanceMode d;
     Device.exposureTargetBias := Device.exposureTargetBias d;
     Device.torchMode := TorchMode.on;
     Device.videoZoomFactor := Device.videoZoomFactor d |}.

Definition overheatedPhone : World :=
  handset (<[1 := torchUnavailable wideBack]> (<[2 := wideFront]> ∅)).

(** A busy afternoon. *)
Definition sampleCalls : list Call :=
  [CallPrepare None false 7;
   Pinch {| state := GestureState.changed; scale := 0.25 |};
   Pinch {| state := GestureState.ended; scale := 0.25 |};
   CallSetFlashMode FlashMode.on;
   CallSetFlashMode FlashMode.auto;
   CallSetTorchMode;
   CallCaptureImage 1;
   CallSwitchCameras;
   PhotoDelivered {| fileDataRepresentation := None |} None;
   CallCaptureSample 2;
   CallStop;
   CallCaptureImage 3;
   CallPrepare (Some front) true 8;
   Pinch {| state := GestureState.began; scale := 40 |}].

(** The session [prepare(rear)] leaves on a single-lens phone. *)
Definition rearSession : Session :=
  {| isRunning := true; sessionPreset := SessionPreset.high;
     inputs := [{| inputId := 0; inputDevice := 1 |}];
     hasPhotoOutput := true; openConfigurations := 0 |}.

(** * Proofs *)

Ltac run :=
  unfold exec, outcome, bind, this, gets, assign, modify, ret, throw, rethrow,
    attempt, defer, withSession, askSession; simpl.

Ltac open_world w :=
  let c := fresh "c" in
  destruct w as [c ? ? ? ? ? ?]; destruct c; simpl in *.

(** ** Worlds and devices *)

Lemma setSelf_setSelf c c' w : setSelf c (setSelf c' w) = setSelf c w.
Proof. reflexivity. Qed.

Lemma device_updateDevice id f w :
  device id (updateDevice id f w) = f (device id w).
Proof.
  unfold device, updateDevice. simpl. by rewrite lookup_total_insert_eq.
Qed.

Lemma device_setSelf id c w : device id (setSelf c w) = device id w.
Proof. reflexivity. Qed.

Lemma updateDevice_twice id f g w :
  updateDevice id g (updateDevice id f w)
  = updateDevice id (fun d => g (f d)) w.
Proof.
  unfold updateDevice, device. simpl.
  by rewrite lookup_total_insert_eq, insert_insert_eq.
Qed.

Lemma baseline_caps d : Device.caps (baseline d) = Device.caps d.
Proof. unfold baseline. repeat case_bool_decide; reflexivity. Qed.

Lemma baseline_zoom d :
  Device.videoZoomFactor (baseline d) =
    if bool_decide (deviceType (Device.caps d) = DeviceType.builtInTripleCamera)
    then 2%Q else Device.videoZoomFactor d.
Proof. unfold baseline. repeat case_bool_decide; reflexivity. Qed.

(** A device the system hands out exists, and is of the type and at the
    position asked for. *)
Lemma AVCaptureDevice_default_spec ty pos w id :
  AVCaptureDevice_default ty pos w = Some id ->
  exists d, devices w !! id = Some d /\
            deviceType (Device.caps d) = ty /\ position (Device.caps d) = pos.
Proof.
  unfold AVCaptureDevice_default. intros [_ H]%find_some.
  destruct (devices w !! id) as [d|]; [|done].
  apply andb_prop in H as [H1%bool_decide_eq_true H2%bool_decide_eq_true].
  eauto.
Qed.

Lemma default_setSelf ty pos c w :
  AVCaptureDevice_default ty pos (setSelf c w) = AVCaptureDevice_default ty pos w.
Proof. reflexivity. Qed.

Lemma default_ext ty pos w1 w2 :
  devices w1 = devices w2 -> discoverable w1 = discoverable w2 ->
  AVCaptureDevice_default ty pos w1 = AVCaptureDevice_default ty pos w2.
Proof. unfold AVCaptureDevice_default. by intros -> ->. Qed.

(** Reconfiguring a device does not change which devices are found: the
    search reads capabilities only. *)
Lemma default_updateDevice ty pos id f w :
  ty <> DeviceType.other ->
  (forall d, Device.caps (f d) = Device.caps d) ->
  AVCaptureDevice_default ty pos (updateDevice id f w)
  = AVCaptureDevice_default ty pos w.
Proof.
  intros Hty Hf. unfold AVCaptureDevice_default. simpl.
  induction (discoverable w) as [|j l IH]; [done|]. simpl. rewrite IH.
  destruct (decide (j = id)) as [->|Hne].
  - rewrite lookup_insert_eq, Hf. unfold device.
    rewrite lookup_total_alt. destruct (devices w !! id); simpl; [done|].
    by rewrite bool_decide_eq_false_2.
  - by rewrite lookup_insert_ne.
Qed.

Lemma selectRear_setSelf c w : selectRear (setSelf c w) = selectRear w.
Proof. reflexivity. Qed.

Lemma selectFront_setSelf c w :
  frontCamera c = frontCamera (self w) ->
  selectFront (setSelf c w) = selectFront w.
Proof.
  intros H. unfold selectFront. rewrite default_setSelf. simpl. by rewrite H.
Qed.

Lemma selected_setSelf pos c w :
  frontCamera c = frontCamera (self w) ->
  selected pos (setSelf c w) = selected pos w.
Proof.
  intros H. destruct pos; simpl;
    [by apply selectFront_setSelf | apply selectRear_setSelf].
Qed.

Lemma selectRear_spec w dev :
  selectRear w = Some dev ->
  exists d, devices w !! dev = Some d /\
    position (Device.caps d) = Position.back /\
    (AVCaptureDevice_default DeviceType.builtInTripleCamera Position.back w
       = Some dev
     /\ deviceType (Device.caps d) = DeviceType.builtInTripleCamera
     \/
     AVCaptureDevice_default DeviceType.builtInTripleCamera Position.back w
       = None
     /\ deviceType (Device.caps d) = DeviceType.builtInWideAngleCamera).
Proof.
  unfold selectRear.
  destruct (AVCaptureDevice_default DeviceType.builtInTripleCamera _ w)
    as [r|] eqn:Ht.
  - intros [= ->]. apply AVCaptureDevice_default_spec in Ht as (d & ? & ? & ?).
    eauto 8.
  - intros (d & ? & ? & ?)%AVCaptureDevice_default_spec. eauto 8.
Qed.

(** ** The methods, run symbolically *)

Lemma configureCameraSettings_run w dev :
  currentCamera (self w) = Some dev ->
  configureCameraSettings w =
    match lockFailure (Device.caps (device dev w)) with
    | Some code => (Throw (FrameworkError code), w)
    | None => (Ok tt, updateDevice dev baseline w)
    end.
Proof.
  intros Hc.
  unfold configureCameraSettings, lockForConfiguration, unlockForConfiguration.
  run. rewrite Hc. destruct (lockFailure _) eqn:Hl; [done|]. simpl.
  rewrite !device_updateDevice. simpl. f_equal.
  repeat (case_bool_decide; simpl; rewrite ?updateDevice_twice).
  all: unfold updateDevice; f_equal; f_equal; unfold baseline.
  all: repeat (case_bool_decide; try done).
  all: destruct (device dev w); reflexivity.
Qed.

Lemma initializeCameraDevices_run cameraPosition w :
  initializeCameraDevices cameraPosition w =
    let c1 :=
      setFrontCamera (selectFront w) (setRearCamera (selectRear w) (self w)) in
    match selected cameraPosition w with
    | Some dev => (Ok tt, setSelf (setCurrentCamera (Some dev) c1) w)
    | None => (Throw (ControllerError noCamerasAvailable), setSelf c1 w)
    end.
Proof.
  unfold initializeCameraDevices, selected, selectRear, selectFront. run.
  destruct w as [c devs disc cai cao n ev];
    destruct c as [cs po pb sb pl fc rc cc ci fm vz]; simpl.
  repeat match goal with
         | |- context [AVCaptureDevice_default ?ty ?pos ?w] =>
             let o := fresh "o" in
             let H := fresh "H" in
             destruct (AVCaptureDevice_default ty pos w) as [o|] eqn:H; simpl;
             rewrite ?default_setSelf, ?H
         end.
  all: destruct cameraPosition; simpl; try reflexivity.
  all: destruct fc; reflexivity.
Qed.

Lemma initializeCameraInput_run w s dev :
  captureSession (self w) = Some s ->
  currentCamera (self w) = Some dev ->
  initializeCameraInput w =
    match inputFailure (Device.caps (device dev w)) with
    | Some _ => (Throw (ControllerError noCamerasAvailable), w)
    | None =>
        let i := {| inputId := nextInputId w; inputDevice := dev |} in
        (Ok tt,
         setNextInputId (S (nextInputId w))
           (setSelf
              (setCameraInput (Some i)
                 (setCaptureSession
                    (Some (if canAddInput w s i then addInput i s else s))
                    (self w))) w))
    end.
Proof.
  intros Hs Hc. unfold initializeCameraInput, AVCaptureDeviceInput_init. run.
  rewrite Hs, Hc. unfold device. simpl.
  destruct (inputFailure _); [done|]. simpl. rewrite Hs. simpl.
  destruct w as [c devs disc cai cao n ev];
    destruct c as [cs po pb sb pl fc rc cc ci fm vz]; simpl in *. subst.
  destruct (cai s _); reflexivity.
Qed.

#[local] Arguments initializeCameraDevices : simpl never.
#[local] Arguments initializeCameraInput : simpl never.
#[local] Arguments configureCameraSettings : simpl never.

(** Everything the claims need to know about a run of [prepare]. *)
Lemma prepare_facts cameraPosition hr h w :
  let w' := exec (prepare cameraPosition hr h) w in
  events w' = events w ++ [PrepareCompleted h (prepareError cameraPosition w)] /\
  rearCamera (self w') = selectRear w /\
  frontCamera (self w') = selectFront w /\
  discoverable w' = discoverable w /\
  currentCamera (self w') =
    match selected (default rear cameraPosition) w with
    | Some dev => Some dev
    | None => currentCamera (self w)
    end /\
  devices w' =
    match selected (default rear cameraPosition) w,
          prepareError cameraPosition w with
    | Some dev, None => <[dev := baseline (device dev w)]> (devices w)
    | _, _ => devices w
    end /\
  (prepareError cameraPosition w = None -> sessionIsRunning (self w') = true).
Proof.
  unfold prepareError. unfold prepare. destruct hr; run.
  all: rewrite initializeCameraDevices_run; cbv zeta.
  all: rewrite !setSelf_setSelf, selectRear_setSelf.
  all: rewrite selected_setSelf, selectFront_setSelf by reflexivity.
  all: destruct (selected _ w) as [dev|] eqn:Hsel; simpl; [|by repeat split].
  all: erewrite initializeCameraInput_run; [| reflexivity | reflexivity].
  all: unfold device at 1; simpl; fold (device dev w).
  all: destruct (inputFailure _) eqn:Hin; simpl; [by repeat split|].
  all: destruct (canAddInput w _ _); destruct (canAddOutput w _); simpl.
  all: erewrite configureCameraSettings_run by reflexivity.
  all: unfold device at 1; simpl; fold (device dev w).
  all: destruct (lockFailure _) eqn:Hlock; simpl.
  all: repeat split; done.
Qed.

Lemma prepare_succeeded cameraPosition h w l :
  l ++ [PrepareCompleted h (prepareError cameraPosition w)]
  = l ++ [PrepareCompleted h None] ->
  prepareError cameraPosition w = None.
Proof. intros H%app_inv_head. by injection H. Qed.

(** The session a run of [prepare] leaves, and what it does not touch. *)
Lemma prepare_more_facts cameraPosition hr h w :
  let w' := exec (prepare cameraPosition hr h) w in
  outcome (prepare cameraPosition hr h) w = Ok tt /\
  photoCaptureCompletionBlock (self w') = photoCaptureCompletionBlock (self w) /\
  sampleBufferCaptureCompletionBlock (self w')
  = sampleBufferCaptureCompletionBlock (self w) /\
  flashMode (self w') = flashMode (self w) /\
  videoZoomFactor (self w') = videoZoomFactor (self w) /\
  exists s,
    captureSession (self w') = Some s /\
    sessionPreset s = (if hr then SessionPreset.photo else SessionPreset.high) /\
    openConfigurations s = 0 /\
    match selected (default rear cameraPosition) w with
    | None => isRunning s = false /\ inputs s = []
    | Some dev =>
        match inputFailure (Device.caps (device dev w)) with
        | Some _ => isRunning s = false /\ inputs s = []
        | None =>
            let i := {| inputId := nextInputId w; inputDevice := dev |} in
            isRunning s = true /\
            cameraInput (self w') = Some i /\
            inputs s =
              (if canAddInput w
                    (if hr then setPreset SessionPreset.photo newSession
                     else newSession) i
               then [i] else [])
        end
    end.
Proof.
  unfold prepare. destruct hr; run.
  all: rewrite initializeCameraDevices_run; cbv zeta.
  all: rewrite !setSelf_setSelf, selectRear_setSelf.
  all: rewrite selected_setSelf, selectFront_setSelf by reflexivity.
  all: destruct (selected _ w) as [dev|] eqn:Hsel; simpl;
    [|by repeat split; eexists; repeat split].
  all: erewrite initializeCameraInput_run; [| reflexivity | reflexivity].
  all: unfold device at 1; simpl; fold (device dev w).
  all: destruct (inputFailure _) eqn:Hin; simpl;
    [by repeat split; eexists; repeat split|].
  all: destruct (canAddInput w _ _) eqn:Hadd; destruct (canAddOutput w _);
    simpl.
  all: erewrite configureCameraSettings_run by reflexivity.
  all: unfold device at 1; simpl; fold (device dev w).
  all: destruct (lockFailure _) eqn:Hlock; simpl.
  all: repeat split; try done.
  all: eexists; repeat split; simpl; auto.
Qed.

Lemma device_lookup w id d : devices w !! id = Some d -> device id w = d.
Proof. intros H. unfold device. by rewrite lookup_total_alt, H. Qed.

Lemma sessionIsRunning_false c :
  sessionIsRunning c = false <->
  captureSession c = None \/
  exists s, captureSession c = Some s /\ isRunning s = false.
Proof.
  unfold sessionIsRunning. destruct (captureSession c) as [s|]; simpl.
  - split; [intros H; right; eauto | intros [H|(s' & H & Hr)]; congruence].
  - split; auto.
Qed.

(** ** Baseline zoom after [prepare] *)

(** C6: after a successful [prepare(rear)] the selected rear device, taken
    at its default zoom factor 1.0, has zoom factor 2.0 if and only if it is
    the multi-lens ([builtInTripleCamera]) unit; on hardware that exposes no
    multi-lens rear unit the selected device is the wide-angle camera and
    its zoom stays 1.0.  The session is then running. *)
Theorem prepare_rear_baseline_zoom (hr : bool) (h : CallbackId) (w : World)
    (dev : DeviceId) :
  let w' := exec (prepare (Some rear) hr h) w in
  events w' = events w ++ [PrepareCompleted h None] ->
  currentCamera (self w') = Some dev ->
  (Device.videoZoomFactor (device dev w) == 1)%Q ->
  rearCamera (self w') = Some dev /\
  sessionIsRunning (self w') = true /\
  ((Device.videoZoomFactor (device dev w') == 2)%Q <->
   deviceType (Device.caps (device dev w'))
   = DeviceType.builtInTripleCamera) /\
  (AVCaptureDevice_default DeviceType.builtInTripleCamera Position.back w
   = None ->
   deviceType (Device.caps (device dev w'))
   = DeviceType.builtInWideAngleCamera /\
   (Device.videoZoomFactor (device dev w') == 1)%Q).
Proof.
  intros w'.
  destruct (prepare_facts (Some rear) hr h w)
    as (Hev & Hrear & _ & _ & Hcur & Hdev & Hrun).
  fold w' in Hev, Hrear, Hcur, Hdev, Hrun. simpl in Hcur, Hdev.
  intros Hok Hc Hz. rewrite Hev in Hok. apply prepare_succeeded in Hok.
  rewrite Hok in Hdev. specialize (Hrun Hok).
  assert (Hsel : selectRear w = Some dev).
  { destruct (selectRear w) eqn:E; [congruence|].
    unfold prepareError in Hok. simpl in Hok. by rewrite E in Hok. }
  rewrite Hsel in Hdev.
  assert (Hd : device dev w' = baseline (device dev w)).
  { unfold device at 1. by rewrite Hdev, lookup_total_insert_eq. }
  rewrite Hd, baseline_caps, baseline_zoom.
  split; [congruence|]. split; [done|].
  apply selectRear_spec in Hsel as (d & Hlk%device_lookup & _ & Hty).
  rewrite Hlk in *. split.
  - case_bool_decide as Ht; [done|]. split; [|done].
    intros H2. rewrite Hz in H2. discriminate H2.
  - intros Hnone. destruct Hty as [[Ht _]|[_ Ht]]; [congruence|].
    split; [done|]. rewrite bool_decide_eq_false_2; [done|congruence].
Qed.

Lemma prepare_rear_baseline_zoom_witness :
  (Device.videoZoomFactor
     (device 0%nat (exec (prepare (Some rear) false 7%nat) multiLensPhone))
   == 2)%Q /\
  (Device.videoZoomFactor
     (device 1%nat (exec (prepare (Some rear) false 7%nat) singleLensPhone))
   == 1)%Q.
Proof.
  split.
  - pose proof (prepare_rear_baseline_zoom false 7 multiLensPhone 0
                  eq_refl eq_refl (Qeq_refl 1)) as (_ & _ & [_ H] & _).
    apply H. reflexivity.
  - pose proof (prepare_rear_baseline_zoom false 7 singleLensPhone 1
                  eq_refl eq_refl (Qeq_refl 1)) as (_ & _ & _ & H).
    apply H. reflexivity.
Defined.

(** ** The default camera position *)

(** C10: [prepare] with no camera position behaves as [prepare(rear)]: the
    rear device is the one selected, and when the hardware has no rear
    device the call fails with [noCamerasAvailable] whether or not a front
    camera exists. *)
Theorem prepare_defaults_to_rear (hr : bool) (h : CallbackId) (w : World) :
  prepare None hr h w = prepare (Some rear) hr h w /\
  let w' := exec (prepare None hr h) w in
  match selectRear w with
  | Some dev =>
      currentCamera (self w') = Some dev /\ rearCamera (self w') = Some dev /\
      position (Device.caps (device dev w')) = Position.back
  | None =>
      events w' =
        events w ++
          [PrepareCompleted h (Some (ControllerError noCamerasAvailable))]
  end.
Proof.
  split; [reflexivity|]. intros w'.
  destruct (prepare_facts None hr h w)
    as (Hev & Hrear & _ & _ & Hcur & Hdev & _).
  fold w' in Hev, Hrear, Hcur, Hdev. unfold prepareError in *. simpl in *.
  destruct (selectRear w) as [dev|] eqn:Hsel; [|done].
  split; [done|]. split; [done|].
  apply selectRear_spec in Hsel as (d & Hlk%device_lookup & Hpos & _).
  assert (Hc : Device.caps (device dev w') = Device.caps (device dev w)).
  { unfold device at 1. rewrite Hdev.
    repeat case_match; by rewrite ?lookup_total_insert_eq, ?baseline_caps. }
  by rewrite Hc, Hlk.
Qed.

Example prepare_nil_on_front_only_tablet :
  events (exec (prepare None false 7) frontOnlyTablet)
  = [PrepareCompleted 7 (Some (ControllerError noCamerasAvailable))].
Proof. reflexivity. Qed.

(** ** Captures without a running session *)

(** C8: a capture request (still photo or sample) issued when the capture
    session is absent or not running calls its completion at once with
    [captureSessionIsMissing]; the world is otherwise unchanged, so no
    hardware capture is issued and no completion slot is written. *)
Theorem capture_without_running_session (completion : CallbackId)
    (w : World) :
  captureSession (self w) = None \/
    (exists s, captureSession (self w) = Some s /\ isRunning s = false) ->
  let missing :=
    CaptureCompleted completion None
      (Some (ControllerError captureSessionIsMissing)) in
  captureImage completion w = (Ok tt, setEvents (events w ++ [missing]) w) /\
  captureSample completion w = (Ok tt, setEvents (events w ++ [missing]) w).
Proof.
  intros H%sessionIsRunning_false. unfold captureImage, captureSample. run.
  rewrite H. done.
Qed.

Lemma capture_without_running_session_witness :
  captureImage 5 multiLensPhone
  = (Ok tt,
     setEvents
       [CaptureCompleted 5 None
          (Some (ControllerError captureSessionIsMissing))]
       multiLensPhone).
Proof.
  exact (proj1 (capture_without_running_session 5 multiLensPhone
                  (or_introl eq_refl))).
Defined.

Example capture_on_stopped_session :
  let w := exec (prepare None false 7;; stop) singleLensPhone in
  sessionIsRunning (self w) = false /\
  events (exec (captureSample 5) w)
  = [PrepareCompleted 7 None;
     CaptureCompleted 5 None (Some (ControllerError captureSessionIsMissing))]
  /\ sampleBufferCaptureCompletionBlock (self (exec (captureSample 5) w))
     = None.
Proof. vm_compute. done. Qed.

(** ** Repeated [prepare] *)

Lemma prepare_never_already_running cameraPosition w :
  prepareError cameraPosition w
  <> Some (ControllerError captureSessionAlreadyRunning).
Proof. unfold prepareError. repeat case_match; congruence. Qed.

(** [prepare] overwrites the session [stop] has halted. *)
Lemma prepare_after_stop cameraPosition hr h w :
  prepare cameraPosition hr h (exec stop w) = prepare cameraPosition hr h w.
Proof. reflexivity. Qed.

Lemma prepare_keeps_cameras cameraPosition hr h w ty pos :
  ty <> DeviceType.other ->
  AVCaptureDevice_default ty pos (exec (prepare cameraPosition hr h) w)
  = AVCaptureDevice_default ty pos w.
Proof.
  intros Hty.
  destruct (prepare_facts cameraPosition hr h w)
    as (_ & _ & _ & Hdisc & _ & Hdev & _).
  destruct (selected _ w) as [dev|]; [|by apply default_ext].
  destruct (prepareError _ w); [by apply default_ext|].
  rewrite <- (default_updateDevice ty pos dev baseline w Hty baseline_caps).
  by apply default_ext.
Qed.

Lemma prepare_keeps_selected cameraPosition hr h w pos :
  selected pos (exec (prepare cameraPosition hr h) w) = selected pos w.
Proof.
  destruct (prepare_facts cameraPosition hr h w) as (_ & _ & Hfront & _).
  destruct pos; simpl; unfold selectFront, selectRear;
    rewrite !prepare_keeps_cameras by done; [|done].
  rewrite Hfront. unfold selectFront. by case_match.
Qed.

Lemma prepare_keeps_caps cameraPosition hr h w id :
  Device.caps (device id (exec (prepare cameraPosition hr h) w))
  = Device.caps (device id w).
Proof.
  destruct (prepare_facts cameraPosition hr h w)
    as (_ & _ & _ & _ & _ & Hdev & _).
  unfold device at 1. rewrite Hdev.
  destruct (selected _ w) as [dev|]; [|done].
  destruct (prepareError _ w); [done|].
  destruct (decide (dev = id)) as [->|Hne].
  - by rewrite lookup_total_insert_eq, baseline_caps.
  - by rewrite lookup_total_insert_ne.
Qed.

Lemma prepareError_stable cameraPosition hr h w pos :
  prepareError pos (exec (prepare cameraPosition hr h) w) = prepareError pos w.
Proof.
  unfold prepareError. rewrite prepare_keeps_selected.
  destruct (selected _ w); [|done]. by rewrite prepare_keeps_caps.
Qed.

(** C2, as the code has it: [prepare] has no already-running check.  After
    a successful [prepare], a second [prepare] for the same position
    succeeds again, without a [stop] in between as well as after one, and
    it replaces the session with a fresh one: a session that is running,
    has the preset of this call, no open configuration and no input but
    the one this call creates, and that does not depend on the session
    there was before.  Whatever the position asked for, the second call
    never reports [captureSessionAlreadyRunning]. *)
Theorem prepare_twice (cameraPosition : option CameraPosition)
    (hr hr' : bool) (h h' : CallbackId) (w : World) :
  let w1 := exec (prepare cameraPosition hr h) w in
  events w1 = events w ++ [PrepareCompleted h None] ->
  events (exec (prepare cameraPosition hr' h') w1)
  = events w1 ++ [PrepareCompleted h' None] /\
  events (exec (stop;; prepare cameraPosition hr' h') w1)
  = events w1 ++ [PrepareCompleted h' None] /\
  (forall cameraPosition',
    exists error,
      events (exec (prepare cameraPosition' hr' h') w1)
      = events w1 ++ [PrepareCompleted h' error] /\
      error <> Some (ControllerError captureSessionAlreadyRunning)) /\
  (exists s dev,
     let i := {| inputId := nextInputId w1; inputDevice := dev |} in
     let w2 := exec (prepare cameraPosition hr' h') w1 in
     captureSession (self w2) = Some s /\
     isRunning s = true /\
     sessionPreset s
     = (if hr' then SessionPreset.photo else SessionPreset.high) /\
     openConfigurations s = 0 /\
     currentCamera (self w2) = Some dev /\
     cameraInput (self w2) = Some i /\
     inputs s =
       (if canAddInput w1
             (if hr' then setPreset SessionPreset.photo newSession
              else newSession) i
        then [i] else [])) /\
  (forall old,
     prepare cameraPosition hr' h'
       (setSelf (setCaptureSession old (self w1)) w1)
     = prepare cameraPosition hr' h' w1).
Proof.
  intros w1 Hok.
  destruct (prepare_facts cameraPosition hr h w) as (Hev & _).
  fold w1 in Hev. rewrite Hev in Hok. apply prepare_succeeded in Hok.
  assert (Hok1 : prepareError cameraPosition w1 = None)
    by (unfold w1; by rewrite prepareError_stable).
  assert (H2 : events (exec (prepare cameraPosition hr' h') w1)
               = events w1 ++ [PrepareCompleted h' None]).
  { destruct (prepare_facts cameraPosition hr' h' w1) as (Hev' & _).
    by rewrite Hev', Hok1. }
  split; [done|]. split; [exact H2|]. split; [|split].
  - intros pos'. exists (prepareError pos' w1). split.
    + by destruct (prepare_facts pos' hr' h' w1) as (Hev' & _).
    + apply prepare_never_already_running.
  - destruct (prepare_facts cameraPosition hr' h' w1)
      as (_ & _ & _ & _ & Hcur & _).
    destruct (prepare_more_facts cameraPosition hr' h' w1)
      as (_ & _ & _ & _ & _ & s & Hs & Hpre & Hopen & Hcases).
    unfold prepareError in Hok1.
    destruct (selected _ w1) as [dev|]; [|done].
    destruct (inputFailure _); [done|].
    destruct Hcases as (Hr & Hi & Hin). by exists s, dev.
  - reflexivity.
Qed.

Lemma prepare_twice_witness :
  let w1 := exec (prepare (Some rear) false 7) multiLensPhone in
  events (exec (prepare (Some rear) true 8) w1)
  = events w1 ++ [PrepareCompleted 8 None] /\
  events (exec (stop;; prepare (Some rear) true 8) w1)
  = events w1 ++ [PrepareCompleted 8 None].
Proof.
  assert (Hok : events (exec (prepare (Some rear) false 7) multiLensPhone)
                = events multiLensPhone ++ [PrepareCompleted 7 None])
    by (vm_compute; reflexivity).
  destruct (prepare_twice (Some rear) false true 7 8 multiLensPhone Hok)
    as (H1 & H2 & _).
  split; [exact H1 | exact H2].
Defined.

(** C2 as stated fails: on a phone with a rear camera, a second [prepare]
    issued while the first session is still running completes without an
    error instead of failing with [captureSessionAlreadyRunning]. *)
Lemma second_prepare_does_not_fail :
  let w1 := exec (prepare (Some rear) false 7) multiLensPhone in
  sessionIsRunning (self w1) = true /\
  events (exec (prepare (Some rear) false 8) w1)
  = [PrepareCompleted 7 None; PrepareCompleted 8 None] /\
  events (exec (prepare (Some rear) false 8) w1)
  <> [PrepareCompleted 7 None;
      PrepareCompleted 8
        (Some (ControllerError captureSessionAlreadyRunning))].
Proof. vm_compute. repeat split. discriminate. Qed.

(** ** [stop] and pending captures *)

(** C3, as the code has it: [stop] only halts the session.  It calls no
    completion block, and both pending completion slots stay as they
    were. *)
Theorem stop_only_halts (w : World) :
  let w' := exec stop w in
  stop w =
    (Ok tt,
     setSelf (setCaptureSession (setRunning false <$> captureSession (self w))
                (self w)) w) /\
  sessionIsRunning (self w') = false /\
  events w' = events w /\
  photoCaptureCompletionBlock (self w')
  = photoCaptureCompletionBlock (self w) /\
  sampleBufferCaptureCompletionBlock (self w')
  = sampleBufferCaptureCompletionBlock (self w).
Proof.
  repeat split. unfold sessionIsRunning, exec, stop. run.
  by destruct (captureSession (self w)).
Qed.

(** C3 as stated fails: stopping the session with both requests pending
    fulfils neither of them. *)
Lemma stop_leaves_captures_pending :
  photoCaptureCompletionBlock (self pendingCaptures) = Some 1 /\
  sampleBufferCaptureCompletionBlock (self pendingCaptures) = Some 2 /\
  let w' := exec stop pendingCaptures in
  events w' = [PrepareCompleted 7 None; CapturePhoto FlashMode.off] /\
  fulfilments 1 (events w') = 0 /\
  fulfilments 2 (events w') = 0 /\
  ~ In (CaptureCompleted 1 None
          (Some (ControllerError captureSessionIsMissing))) (events w') /\
  ~ In (CaptureCompleted 2 None
          (Some (ControllerError captureSessionIsMissing))) (events w').
Proof.
  vm_compute. repeat split; intros [H|[H|[]]]; discriminate H.
Qed.

(** ** The still-photo completion slot *)

Lemma captureImage_running completion w :
  sessionIsRunning (self w) = true ->
  captureImage completion w =
    (Ok tt,
     setSelf (setPhotoBlock (Some completion) (self w))
       (emit (CapturePhoto (flashMode (self w))) w)).
Proof. intros H. unfold captureImage. run. by rewrite H. Qed.

(** The delegate calls whatever block the slot holds, once, and leaves the
    slot alone. *)
Lemma photoOutput_calls_slot photo error w b :
  photoCaptureCompletionBlock (self w) = Some b ->
  exists image err,
    photoOutput_didFinishProcessingPhoto photo error w =
      (Ok tt, emit (CaptureCompleted b image err) w).
Proof.
  intros H. unfold photoOutput_didFinishProcessingPhoto. run. rewrite H.
  destruct error as [e|]; [by eauto|].
  destruct (fileDataRepresentation photo) as [[image|]|]; by eauto.
Qed.

(** C1, as the code has it: the controller has one still-photo completion
    slot.  A second [captureImage] issued while the first is pending
    replaces the first call's block in the slot; a photo delivered by the
    hardware afterwards calls the block in the slot (the second call's)
    exactly once and leaves it there, and the first call's block is not
    called. *)
Theorem single_photo_completion_slot (first second : CallbackId)
    (photo : AVCapturePhoto) (error : option Error) (w : World) :
  sessionIsRunning (self w) = true ->
  first <> second ->
  let w1 := exec (captureImage first) w in
  let w2 := exec (captureImage second) w1 in
  let w3 := exec (photoOutput_didFinishProcessingPhoto photo error) w2 in
  photoCaptureCompletionBlock (self w1) = Some first /\
  photoCaptureCompletionBlock (self w2) = Some second /\
  photoCaptureCompletionBlock (self w3) = Some second /\
  fulfilments second (events w3) = S (fulfilments second (events w)) /\
  fulfilments first (events w3) = fulfilments first (events w).
Proof.
  intros Hrun Hne w1 w2 w3.
  assert (E1 : w1 = setSelf (setPhotoBlock (Some first) (self w))
                      (emit (CapturePhoto (flashMode (self w))) w)).
  { unfold w1, exec. by rewrite captureImage_running. }
  assert (E2 : w2 = setSelf (setPhotoBlock (Some second) (self w1))
                      (emit (CapturePhoto (flashMode (self w1))) w1)).
  { unfold w2, exec. rewrite captureImage_running; [done|]. by rewrite E1. }
  assert (H2 : photoCaptureCompletionBlock (self w2) = Some second)
    by by rewrite E2.
  destruct (photoOutput_calls_slot photo error w2 second H2)
    as (image & err & E3).
  assert (E3' : w3 = emit (CaptureCompleted second image err) w2)
    by (unfold w3, exec; by rewrite E3).
  split; [by rewrite E1|]. split; [done|]. split; [by rewrite E3'|].
  rewrite E3', E2, E1. unfold fulfilments, emit. simpl.
  rewrite !List.filter_app, !length_app. simpl.
  rewrite bool_decide_eq_true_2 by done.
  rewrite bool_decide_eq_false_2 by done. simpl. lia.
Qed.

Lemma single_photo_completion_slot_witness :
  let w := exec (prepare (Some rear) false 7) singleLensPhone in
  let w3 :=
    exec (captureImage 1;; captureImage 2;;
          photoOutput_didFinishProcessingPhoto
            {| fileDataRepresentation := None |} None) w in
  fulfilments 2 (events w3) = 1 /\ fulfilments 1 (events w3) = 0.
Proof.
  assert (Hrun : sessionIsRunning
                   (self (exec (prepare (Some rear) false 7) singleLensPhone))
                 = true) by (vm_compute; reflexivity).
  assert (Hne : 1 <> 2) by lia.
  destruct (single_photo_completion_slot 1 2
              {| fileDataRepresentation := None |} None _ Hrun Hne)
    as (_ & _ & _ & H2 & H1).
  vm_compute in H1, H2. vm_compute. split; [exact H2 | exact H1].
Defined.

(** C1 as stated fails: the second capture replaces the first call's block,
    and of the two photos delivered the first caller receives none and the
    second caller both. *)
Lemma second_capture_replaces_first :
  photoCaptureCompletionBlock
    (self (exec (prepare (Some rear) false 7;; captureImage 1)
             singleLensPhone)) = Some 1 /\
  photoCaptureCompletionBlock (self twoCaptures) = Some 2 /\
  events twoPhotosDelivered
  = [PrepareCompleted 7 None;
     CapturePhoto FlashMode.off; CapturePhoto FlashMode.off;
     CaptureCompleted 2 (Some {| pixels := 11; upright := true |}) None;
     CaptureCompleted 2 (Some {| pixels := 22; upright := true |}) None] /\
  fulfilments 1 (events twoPhotosDelivered) = 0 /\
  fulfilments 2 (events twoPhotosDelivered) = 2.
Proof. vm_compute. repeat split. Qed.

(** ** Flash mode *)

Lemma setFlashMode_run mode w dev :
  currentCamera (self w) = Some dev ->
  setFlashMode mode w =
    if bool_decide (mode ∈ supportedFlashModes (photoOutput (self w))) then
      match lockFailure (Device.caps (device dev w)) with
      | Some _ => (Throw (ControllerError invalidOperation), w)
      | None =>
          (Ok tt,
           setSelf (withFlash mode (self w))
             (updateDevice dev torchOffForFlash w))
      end
    else (Ok tt, w).
Proof.
  intros Hc. unfold setFlashMode, lockForConfiguration, unlockForConfiguration.
  run. rewrite Hc. case_bool_decide; simpl; [|done].
  destruct (lockFailure _) eqn:Hl; [done|]. simpl.
  rewrite !device_updateDevice. simpl. unfold torchOffForFlash, withFlash.
  unfold updateDevice, device in *. simpl.
  destruct (devices w !!! dev) as [cp lk fo ex wb bias torch zoom] eqn:Hd.
  simpl in *.
  destruct (hasTorch cp), (isTorchAvailable cp); simpl;
    try case_bool_decide; simpl.
  all: rewrite ?lookup_total_insert_eq, ?insert_insert_eq; simpl.
  all: reflexivity.
Qed.

(** C7, as the code has it.  With no device selected [setFlashMode] throws
    [noCamerasAvailable] for every mode and changes nothing.  With a device
    selected: a mode outside the photo output's supported set returns
    without error and leaves the whole world unchanged; a supported mode,
    when the device grants its configuration lock, is stored as the flash
    mode the next still capture uses, and the torch of a device whose torch
    is available is turned off if it was on; when the lock is refused the
    call throws [invalidOperation] and changes nothing. *)
Theorem setFlashMode_spec (mode : FlashMode.t) (w : World) :
  match currentCamera (self w) with
  | None =>
      setFlashMode mode w = (Throw (ControllerError noCamerasAvailable), w)
  | Some dev =>
      let d := device dev w in
      let w' := exec (setFlashMode mode) w in
      (mode ∉ supportedFlashModes (photoOutput (self w)) ->
       setFlashMode mode w = (Ok tt, w)) /\
      (mode ∈ supportedFlashModes (photoOutput (self w)) ->
       lockFailure (Device.caps d) <> None ->
       setFlashMode mode w = (Throw (ControllerError invalidOperation), w)) /\
      (mode ∈ supportedFlashModes (photoOutput (self w)) ->
       lockFailure (Device.caps d) = None ->
       outcome (setFlashMode mode) w = Ok tt /\
       flashMode (self w') = mode /\
       (forall completion, sessionIsRunning (self w) = true ->
          events (exec (captureImage completion) w')
          = events w ++ [CapturePhoto mode]) /\
       Device.torchMode (device dev w')
       = (if hasTorch (Device.caps d) && isTorchAvailable (Device.caps d)
             && bool_decide (Device.torchMode d = TorchMode.on)
          then TorchMode.off else Device.torchMode d) /\
       (hasTorch (Device.caps d) = true ->
        isTorchAvailable (Device.caps d) = true ->
        Device.torchMode (device dev w') <> TorchMode.on))
  end.
Proof.
  destruct (currentCamera (self w)) as [dev|] eqn:Hc.
  2:{ unfold setFlashMode. run. by rewrite Hc. }
  intros d w'. unfold w', exec, outcome.
  rewrite (setFlashMode_run mode w dev Hc). fold d.
  split; [|split].
  - intros Hm. by rewrite bool_decide_eq_false_2.
  - intros Hm Hl. rewrite bool_decide_eq_true_2 by done.
    by destruct (lockFailure _).
  - intros Hm Hl. rewrite bool_decide_eq_true_2, Hl by done. simpl.
    split; [done|]. split; [done|]. split.
    + intros completion Hrun. rewrite captureImage_running; [done|].
      unfold sessionIsRunning in *. simpl. done.
    + rewrite device_setSelf, device_updateDevice. fold d.
      unfold torchOffForFlash.
      split.
      * by destruct (hasTorch _ && isTorchAvailable _ && bool_decide _).
      * intros -> ->. simpl. case_bool_decide; simpl; [done|congruence].
Qed.

Lemma setFlashMode_spec_witness :
  Device.torchMode (device 1 torchLit) = TorchMode.on /\
  setFlashMode FlashMode.auto torchLit = (Ok tt, torchLit) /\
  flashMode (self (exec (setFlashMode FlashMode.on) torchLit)) = FlashMode.on /\
  Device.torchMode (device 1 (exec (setFlashMode FlashMode.on) torchLit))
  <> TorchMode.on.
Proof.
  pose proof (setFlashMode_spec FlashMode.auto torchLit) as Hauto.
  pose proof (setFlashMode_spec FlashMode.on torchLit) as Hon.
  assert (Hc : currentCamera (self torchLit) = Some 1)
    by (vm_compute; reflexivity).
  rewrite Hc in Hauto, Hon. cbv zeta in Hauto, Hon.
  destruct Hauto as (Hauto & _). destruct Hon as (_ & _ & Hon).
  assert (Hin : FlashMode.on ∈ supportedFlashModes (photoOutput (self torchLit)))
    by (vm_compute; apply list_elem_of_In; simpl; auto).
  assert (Hlock : lockFailure (Device.caps (device 1 torchLit)) = None)
    by (vm_compute; reflexivity).
  destruct (Hon Hin Hlock) as (_ & Hflash & _ & _ & Htorch).
  split; [vm_compute; reflexivity|]. split.
  - apply Hauto. vm_compute. intros H%list_elem_of_In. simpl in H.
    destruct H as [H|[H|[]]]; discriminate H.
  - split; [exact Hflash|]. apply Htorch; vm_compute; reflexivity.
Defined.

(** Before any device is selected [setFlashMode] throws, whatever the
    mode. *)
Example setFlashMode_before_prepare :
  currentCamera (self multiLensPhone) = None /\
  outcome (setFlashMode FlashMode.auto) multiLensPhone
  = Throw (ControllerError noCamerasAvailable) /\
  outcome (setFlashMode FlashMode.on) multiLensPhone
  = Throw (ControllerError noCamerasAvailable).
Proof. vm_compute. repeat split. Qed.

(** C7 as stated fails, with a device selected and the session running.
    On a phone whose rear camera refuses the configuration lock,
    [setFlashMode] of a supported mode throws [invalidOperation] and does
    not store the mode: the next still capture uses the old one.  On a
    phone whose torch is on and no longer available, [setFlashMode] of a
    supported mode succeeds and leaves the torch on. *)
Lemma setFlashMode_lock_refused_or_torch_unavailable :
  let w := exec (prepare (Some rear) false 7) lockedRearPhone in
  let v := exec (prepare (Some rear) false 7) overheatedPhone in
  (currentCamera (self w) = Some 1 /\
   sessionIsRunning (self w) = true /\
   supportedFlashModes (photoOutput (self w))
   = [FlashMode.off; FlashMode.on] /\
   lockFailure (Device.caps (device 1 w)) = Some 13 /\
   outcome (setFlashMode FlashMode.on) w
   = Throw (ControllerError invalidOperation) /\
   flashMode (self (exec (setFlashMode FlashMode.on) w)) = FlashMode.off /\
   events (exec (captureImage 1) (exec (setFlashMode FlashMode.on) w))
   = [PrepareCompleted 7 (Some (FrameworkError 13));
      CapturePhoto FlashMode.off]) /\
  (currentCamera (self v) = Some 1 /\
   sessionIsRunning (self v) = true /\
   supportedFlashModes (photoOutput (self v))
   = [FlashMode.off; FlashMode.on] /\
   hasTorch (Device.caps (device 1 v)) = true /\
   isTorchAvailable (Device.caps (device 1 v)) = false /\
   Device.torchMode (device 1 v) = TorchMode.on /\
   outcome (setFlashMode FlashMode.on) v = Ok tt /\
   flashMode (self (exec (setFlashMode FlashMode.on) v)) = FlashMode.on /\
   Device.torchMode (device 1 (exec (setFlashMode FlashMode.on) v))
   = TorchMode.on).
Proof. vm_compute. repeat split. Qed.

(** ** Getters *)

Section GettersSucceed.
Variable exposureModeRawValue : ExposureMode.t -> string.
Variable whiteBalanceModeRawValue : WhiteBalanceMode.t -> string.

(** C9: whenever a device is selected every getter succeeds.  The getters
    of exposure compensation, its range, the exposure mode, the
    white-balance mode, the supported white-balance modes and the supported
    picture sizes are non-throwing functions and return the selected
    device's values; [getSupportedFlashModes], the one getter that can
    throw, returns a list and leaves the world alone.  It throws only when
    no device is selected. *)
Theorem getters_fail_only_without_device (w : World) :
  (forall dev, currentCamera (self w) = Some dev ->
     let d := device dev w in
     getExposureCompensation w = Device.exposureTargetBias d /\
     getExposureCompensationRange w
     = [minExposureTargetBias (Device.caps d);
        maxExposureTargetBias (Device.caps d)] /\
     getExposureMode exposureModeRawValue w
     = exposureModeRawValue (Device.exposureMode d) /\
     getWhiteBalanceMode whiteBalanceModeRawValue w
     = whiteBalanceModeRawValue (Device.whiteBalanceMode d) /\
     getSupportedWhiteBalanceModes whiteBalanceModeRawValue w
     = whiteBalanceModeRawValue
         <$> supportedWhiteBalanceModes (Device.caps d) /\
     length (getSupportedPictureSizes w)
     = length (supportedSizes (Device.caps d)) /\
     (forall i size, supportedSizes (Device.caps d) !! i = Some size ->
        exists entry, getSupportedPictureSizes w !! i = Some entry /\
          entry !! "width" = Some (fst size) /\
          entry !! "height" = Some (snd size)) /\
     exists modes, getSupportedFlashModes w = (Ok modes, w)) /\
  (forall error, outcome getSupportedFlashModes w = Throw error ->
     currentCamera (self w) = None /\
     error = ControllerError noCamerasAvailable).
Proof.
  split.
  - intros dev Hc d.
    unfold getExposureCompensation, getExposureCompensationRange,
      getExposureMode, getWhiteBalanceMode, getSupportedWhiteBalanceModes,
      getSupportedPictureSizes, getSupportedFlashModes.
    run. rewrite Hc. fold d. repeat split.
    + by rewrite length_fmap.
    + intros i size Hi. rewrite list_lookup_fmap, Hi. simpl.
      eexists. split; [done|]. by simplify_map_eq.
    + eauto.
  - intros error. unfold getSupportedFlashModes. run.
    destruct (currentCamera (self w)); simpl; [done|]. by intros [= <-].
Qed.

End GettersSucceed.

Lemma getters_fail_only_without_device_witness :
  getExposureMode exposureModeName rearRunning = "continuous" /\
  getWhiteBalanceMode whiteBalanceModeName rearRunning = "continuous" /\
  getExposureCompensationRange rearRunning = [-8; 8]%Q /\
  getSupportedFlashModes rearRunning = (Ok ["off"; "on"; "torch"], rearRunning).
Proof.
  destruct (getters_fail_only_without_device exposureModeName
              whiteBalanceModeName rearRunning) as [H _].
  assert (Hc : currentCamera (self rearRunning) = Some 1)
    by (vm_compute; reflexivity).
  destruct (H 1 Hc) as (_ & Hrange & Hexp & Hwb & _ & _ & _ & modes & Hfl).
  split; [rewrite Hexp; vm_compute; reflexivity|].
  split; [rewrite Hwb; vm_compute; reflexivity|].
  split; [rewrite Hrange; vm_compute; reflexivity|].
  rewrite Hfl. f_equal. f_equal.
  assert (E : outcome getSupportedFlashModes rearRunning = Ok modes)
    by (unfold outcome; by rewrite Hfl).
  vm_compute in E. by injection E.
Defined.

Example getSupportedFlashModes_before_prepare :
  outcome getSupportedFlashModes multiLensPhone
  = Throw (ControllerError noCamerasAvailable).
Proof. reflexivity. Qed.

(** ** Pinch to zoom *)

(** While a gesture is in progress the zoom applied is the clamped gesture
    scale; the factor committed when the previous gesture ended is not
    read. *)
Lemma handlePinch_applies_scale pinch w dev :
  currentCamera (self w) = Some dev ->
  state pinch = GestureState.began \/ state pinch = GestureState.changed ->
  lockFailure (Device.caps (device dev w)) = None ->
  Device.videoZoomFactor (device dev (exec (handlePinch pinch) w))
  = minMaxZoom (device dev w) (scale pinch).
Proof.
  intros Hc Hst Hl.
  unfold handlePinch, update, lockForConfiguration, unlockForConfiguration.
  run. rewrite Hc.
  assert (E : forall (k1 k2 k3 : M unit),
             match state pinch with
             | GestureState.began | GestureState.changed => k1
             | GestureState.ended => k2
             | _ => k3
             end = k1) by (by destruct Hst as [-> | ->]).
  rewrite E, Hl. simpl. by rewrite !device_updateDevice.
Qed.

(** C4: the code departs from the claim.  On the rear camera (maximum zoom
    10) the gesture began(1.0), changed(1.5), ended commits factor 1.5; the
    next gesture began(1.0), changed(1.2) leaves the device at 1.2, the
    clamped scale alone, and not at 1.5 x 1.2 = 1.8. *)
Theorem pinch_restarts_from_gesture_scale :
  Device.videoZoomFactor (device 1 firstPinch) = 1.5%Q /\
  videoZoomFactor (self firstPinch) = 1.5%Q /\
  videoMaxZoomFactor (Device.caps (device 1 secondPinch)) = 10%Q /\
  Device.videoZoomFactor (device 1 secondPinch) = 1.2%Q /\
  ~ (Device.videoZoomFactor (device 1%nat secondPinch) == 1.8)%Q.
Proof. vm_compute. repeat split. discriminate. Qed.

(** ** Switching cameras *)

Lemma switchCameras_unspecified w s dev :
  captureSession (self w) = Some s ->
  isRunning s = true ->
  currentCamera (self w) = Some dev ->
  position (Device.caps (device dev w)) = Position.unspecified ->
  switchCameras w =
    (Ok tt,
     setSelf (setCaptureSession (Some (beginConfiguration s)) (self w)) w).
Proof.
  intros Hs Hr Hc Hp. unfold switchCameras. run.
  unfold sessionIsRunning. rewrite Hs. simpl. rewrite Hr, Hc. simpl.
  unfold device in *. simpl. by rewrite Hp, Hs.
Qed.

(** The path on which the switch goes through commits what it began. *)
Example switchCameras_commits_on_success :
  let w := exec (prepare (Some rear) false 7) multiLensPhone in
  outcome switchCameras w = Ok tt /\
  currentCamera (self (exec switchCameras w)) = Some 2 /\
  openConfigurations <$> captureSession (self (exec switchCameras w))
  = Some 0.
Proof. vm_compute. repeat split. Qed.

(** C5: the code departs from the claim.  On a tablet with no rear camera,
    started on its front camera, [switchCameras] begins a configuration,
    fails in [switchToRearCamera] with [invalidOperation], and returns with
    the configuration still open. *)
Theorem switchCameras_leaves_configuration_open :
  sessionIsRunning (self frontRunning) = true /\
  openConfigurations <$> captureSession (self frontRunning) = Some 0 /\
  outcome switchCameras frontRunning
  = Throw (ControllerError invalidOperation) /\
  openConfigurations <$> captureSession (self (exec switchCameras frontRunning))
  = Some 1.
Proof. vm_compute. repeat split. Qed.


(** * Beyond the claims: what every run of the controller keeps *)

From Stdlib Require Import Lqa.

(** ** The device-configuring methods, run symbolically *)

Lemma update_run dev factor w :
  update dev factor w =
    match lockFailure (Device.caps (device dev w)) with
    | Some code => (Ok tt, emit (DebugPrint (FrameworkError code)) w)
    | None => (Ok tt, updateDevice dev (setZoom factor) w)
    end.
Proof.
  unfold update, lockForConfiguration, unlockForConfiguration. run.
  destruct (lockFailure _); [done|]. simpl.
  rewrite !updateDevice_twice. unfold updateDevice. repeat f_equal.
  all: by destruct (device dev w).
Qed.

Lemma setTorchMode_run w dev :
  currentCamera (self w) = Some dev ->
  setTorchMode w =
    let d := device dev w in
    if hasTorch (Device.caps d) && isTorchAvailable (Device.caps d) then
      match lockFailure (Device.caps d) with
      | Some _ => (Throw (ControllerError invalidOperation), w)
      | None => (Ok tt, updateDevice dev (setTorch (bestTorchMode d)) w)
      end
    else (Throw (ControllerError invalidOperation), w).
Proof.
  intros Hc. unfold setTorchMode, lockForConfiguration, unlockForConfiguration.
  run. rewrite Hc. simpl.
  destruct (hasTorch _ && isTorchAvailable _); [|done].
  destruct (lockFailure _); [done|]. simpl.
  rewrite !updateDevice_twice. unfold updateDevice, bestTorchMode.
  repeat f_equal. all: by destruct (device dev w).
Qed.

Lemma handlePinch_run pinch w dev :
  currentCamera (self w) = Some dev ->
  handlePinch pinch w =
    match state pinch with
    | GestureState.began | GestureState.changed =>
        update dev (minMaxZoom (device dev w) (scale pinch)) w
    | GestureState.ended =>
        (Ok tt,
         setSelf (setVideoZoomFactor (Device.videoZoomFactor (device dev w))
                    (self w)) w)
    | _ => (Ok tt, w)
    end.
Proof.
  intros Hc. unfold handlePinch. run. rewrite Hc. by destruct (state pinch).
Qed.

(** ** Composing methods that keep a relation *)

#[local] Unset Default Proof Using.

Section Keeps.
Variable R : World -> World -> Prop.
Hypothesis R_refl : forall w, R w w.
Hypothesis R_trans : forall w1 w2 w3, R w1 w2 -> R w2 w3 -> R w1 w3.

Lemma keeps_ret {A} (a : A) : keeps R (ret a).
Proof. intros w. apply R_refl. Qed.

Lemma keeps_throw {A} e : keeps R (@throw A e).
Proof. intros w. apply R_refl. Qed.

Lemma keeps_rethrow {A} e : keeps R (@rethrow A e).
Proof. intros w. apply R_refl. Qed.

Lemma keeps_gets {A} (f : World -> A) : keeps R (gets f).
Proof. intros w. apply R_refl. Qed.

Lemma keeps_this {A} (f : CameraController -> A) : keeps R (this f).
Proof. intros w. apply R_refl. Qed.

Lemma keeps_askSession q : keeps R (askSession q).
Proof. intros w. apply R_refl. Qed.

Lemma keeps_modify f : (forall w, R w (f w)) -> keeps R (modify f).
Proof. intros H w. apply H. Qed.

Lemma keeps_bind {A B} (m : M A) (k : A -> M B) :
  keeps R m -> (forall a, keeps R (k a)) -> keeps R (bind m k).
Proof.
  intros Hm Hk w. specialize (Hm w). unfold exec, bind in *.
  destruct (m w) as [[a|e] w1]; simpl in *; [|done].
  eapply R_trans; [exact Hm|]. apply Hk.
Qed.

Lemma keeps_attempt {A} (m : M A) : keeps R m -> keeps R (attempt m).
Proof.
  intros Hm w. specialize (Hm w). unfold exec, attempt in *.
  by destruct (m w).
Qed.

Lemma keeps_defer {A} cleanup (m : M A) :
  (forall w, R w (cleanup w)) -> keeps R m -> keeps R (defer cleanup m).
Proof.
  intros Hc Hm w. specialize (Hm w). unfold exec, defer in *.
  destruct (m w) as [r w1]; simpl in *. eauto.
Qed.

(** What the relation has to grant about the primitive effects. *)
Hypothesis R_assign :
  forall f,
    (forall c, supportedFlashModes (photoOutput (f c))
               = supportedFlashModes (photoOutput c)
               /\ flashMode (f c) = flashMode c) ->
    forall w, R w (setSelf (f (self w)) w).
Hypothesis R_emit : forall e, oneOfImageOrError e -> forall w, R w (emit e w).
Hypothesis R_nextInputId : forall n w, R w (setNextInputId n w).

(** Reconfiguring a device keeps the relation when the change is a good
    one; the four changes the controller makes are. *)
Variable good : (Device.t -> Device.t) -> Prop.
Hypothesis R_updateDevice :
  forall id f, good f -> forall w, R w (updateDevice id f w).
Hypothesis good_baseline : good baseline.
Hypothesis good_zoom : forall d s, good (setZoom (minMaxZoom d s)).
Hypothesis good_torchOff : good torchOffForFlash.
Hypothesis good_torch : forall m, good (setTorch m).
Hypothesis R_withFlash :
  forall mode w,
    mode ∈ supportedFlashModes (photoOutput (self w)) ->
    R w (setSelf (withFlash mode (self w)) w).

Lemma K_configure : keeps R configureCameraSettings.
Proof.
  intros w. unfold exec.
  destruct (currentCamera (self w)) as [dev|] eqn:Hc.
  - rewrite (configureCameraSettings_run w dev Hc).
    destruct (lockFailure _); simpl; auto.
  - unfold configureCameraSettings. run. rewrite Hc. apply R_refl.
Qed.

Lemma K_update d s dev : keeps R (update dev (minMaxZoom d s)).
Proof.
  intros w. unfold exec. rewrite update_run.
  destruct (lockFailure _); simpl; auto. by apply R_emit.
Qed.

Lemma K_setFlashMode mode : keeps R (setFlashMode mode).
Proof.
  intros w. unfold exec.
  destruct (currentCamera (self w)) as [dev|] eqn:Hc.
  - rewrite (setFlashMode_run mode w dev Hc).
    case_bool_decide; simpl; [|done].
    destruct (lockFailure _); simpl; [done|].
    eapply R_trans; [apply (R_updateDevice dev _ good_torchOff)|].
    by apply (R_withFlash mode (updateDevice dev torchOffForFlash w)).
  - unfold setFlashMode. run. rewrite Hc. apply R_refl.
Qed.

Lemma K_setTorchMode : keeps R setTorchMode.
Proof.
  intros w. unfold exec.
  destruct (currentCamera (self w)) as [dev|] eqn:Hc.
  - rewrite (setTorchMode_run w dev Hc). cbv zeta.
    destruct (hasTorch _ && isTorchAvailable _); simpl; [|done].
    destruct (lockFailure _); simpl; auto.
  - unfold setTorchMode. run. rewrite Hc. apply R_refl.
Qed.

Lemma keeps_assign f :
  (forall c, supportedFlashModes (photoOutput (f c))
             = supportedFlashModes (photoOutput c)
             /\ flashMode (f c) = flashMode c) ->
  keeps R (assign f).
Proof. intros H w. by apply R_assign. Qed.

Lemma keeps_withSession g : keeps R (withSession g).
Proof. apply keeps_assign. by intros c. Qed.

Lemma keeps_emit e : oneOfImageOrError e -> keeps R (modify (emit e)).
Proof. intros H. apply keeps_modify. by apply R_emit. Qed.

Lemma keeps_call block image error :
  oneOfImageOrError (CaptureCompleted 0 image error) ->
  keeps R (modify (call block image error)).
Proof.
  intros H. apply keeps_modify. destruct block as [b|]; simpl; [|done].
  apply R_emit. by destruct image, error.
Qed.

Ltac keeps_go :=
  repeat first
    [ apply keeps_ret | apply keeps_throw | apply keeps_rethrow
    | apply keeps_gets | apply keeps_this | apply keeps_askSession
    | apply keeps_withSession
    | apply keeps_assign; intros ?; split; reflexivity
    | apply keeps_emit; exact I
    | apply keeps_call; exact I
    | apply keeps_modify, R_nextInputId
    | apply K_configure | apply K_update | apply K_setFlashMode
    | apply K_setTorchMode
    | apply keeps_attempt
    | apply keeps_bind; [|intros ?]
    | case_match ].

Lemma keeps_initializeCameraDevices cameraPosition :
  keeps R (initializeCameraDevices cameraPosition).
Proof. unfold initializeCameraDevices. keeps_go. Qed.

Lemma keeps_AVCaptureDeviceInput_init dev :
  keeps R (AVCaptureDeviceInput_init dev).
Proof. unfold AVCaptureDeviceInput_init. keeps_go. Qed.

Lemma keeps_initializeCameraInput : keeps R initializeCameraInput.
Proof. unfold initializeCameraInput. keeps_go. Qed.

Lemma keeps_prepare cameraPosition hr h : keeps R (prepare cameraPosition hr h).
Proof. unfold prepare. keeps_go. Qed.

Lemma keeps_stop : keeps R stop.
Proof. unfold stop. keeps_go. Qed.

Lemma keeps_switchTo target : keeps R (switchTo target).
Proof. unfold switchTo. keeps_go. Qed.

Lemma keeps_switchCameras : keeps R switchCameras.
Proof.
  unfold switchCameras, switchToFrontCamera, switchToRearCamera. keeps_go.
Qed.

Lemma keeps_captureImage completion : keeps R (captureImage completion).
Proof. unfold captureImage. keeps_go. Qed.

Lemma keeps_captureSample completion : keeps R (captureSample completion).
Proof. unfold captureSample. keeps_go. Qed.

Lemma keeps_getSupportedFlashModes : keeps R getSupportedFlashModes.
Proof. unfold getSupportedFlashModes. keeps_go. Qed.

Lemma keeps_photoOutput photo error :
  keeps R (photoOutput_didFinishProcessingPhoto photo error).
Proof. unfold photoOutput_didFinishProcessingPhoto. keeps_go. Qed.

Lemma keeps_handlePinch pinch : keeps R (handlePinch pinch).
Proof. unfold handlePinch. keeps_go. Qed.

Lemma keeps_step c w : R w (step c w).
Proof.
  destruct c; simpl.
  - apply keeps_prepare.
  - apply keeps_stop.
  - apply keeps_switchCameras.
  - apply keeps_captureImage.
  - apply keeps_captureSample.
  - apply keeps_getSupportedFlashModes.
  - apply K_setFlashMode.
  - apply K_setTorchMode.
  - apply keeps_photoOutput.
  - apply keeps_handlePinch.
Qed.

Lemma keeps_run calls w : R w (run calls w).
Proof.
  revert w. induction calls as [|c calls IH]; intros w; simpl; [done|].
  eapply R_trans; [apply keeps_step | apply IH].
Qed.

End Keeps.

Lemma preserved_refl P w : preserved P w w.
Proof. by intros H. Qed.

Lemma preserved_trans P w1 w2 w3 :
  preserved P w1 w2 -> preserved P w2 w3 -> preserved P w1 w3.
Proof. unfold preserved. auto. Qed.

Lemma device_updateDevice_ne id id' f w :
  id <> id' -> device id' (updateDevice id f w) = device id' w.
Proof.
  intros Hne. unfold device, updateDevice. simpl.
  by rewrite lookup_total_insert_ne.
Qed.

Lemma device_updateDevice_cases id id' f w :
  device id' (updateDevice id f w)
  = if decide (id = id') then f (device id w) else device id' w.
Proof.
  case_decide as H.
  - subst. apply device_updateDevice.
  - by apply device_updateDevice_ne.
Qed.

(** ** Configuration locks *)

Lemma baseline_locks d :
  Device.configurationLocks (baseline d) = Device.configurationLocks d.
Proof. unfold baseline. repeat case_bool_decide; reflexivity. Qed.

Lemma torchOffForFlash_locks d :
  Device.configurationLocks (torchOffForFlash d) = Device.configurationLocks d.
Proof. unfold torchOffForFlash. by case_match. Qed.

(** X1: After any sequence of controller calls, photo deliveries and pinch
    events, every device has as many outstanding configuration locks as
    before: each lockForConfiguration is matched by an
    unlockForConfiguration on every exit path, including the failing ones. *)
Theorem locks_balanced_after_any_run (calls : list Call) (w : World) :
  locksBalanced w (run calls w).
Proof.
  apply (keeps_run locksBalanced) with
    (good := fun f => forall d,
               Device.configurationLocks (f d) = Device.configurationLocks d).
  - by intros w0 id.
  - intros w1 w2 w3 H12 H23 id. by rewrite H23, H12.
  - by intros f _ w0 id.
  - by intros e _ w0 id.
  - by intros n w0 id.
  - intros id f Hf w0 id'. rewrite device_updateDevice_cases.
    case_decide; [subst; apply Hf | done].
  - apply baseline_locks.
  - done.
  - apply torchOffForFlash_locks.
  - done.
  - by intros mode w0 _ id.
Qed.

(** ** The zoom factor *)

Lemma swiftMax_ge x y : (x <= swiftMax x y)%Q.
Proof.
  unfold swiftMax. destruct (Qle_bool x y) eqn:E.
  - by apply Qle_bool_iff.
  - apply Qle_refl.
Qed.

Lemma swiftMax_le x y z : (x <= z)%Q -> (y <= z)%Q -> (swiftMax x y <= z)%Q.
Proof. unfold swiftMax. by destruct (Qle_bool x y). Qed.

Lemma swiftMin_le_r x y : (swiftMin x y <= y)%Q.
Proof.
  unfold swiftMin. destruct (Qle_bool x y) eqn:E.
  - by apply Qle_bool_iff.
  - apply Qle_refl.
Qed.

Lemma minMaxZoom_ge d factor : (1 <= minMaxZoom d factor)%Q.
Proof. apply swiftMax_ge. Qed.

Lemma baseline_zoom_ge d :
  (1 <= Device.videoZoomFactor d)%Q ->
  (1 <= Device.videoZoomFactor (baseline d))%Q.
Proof. rewrite baseline_zoom. by case_bool_decide. Qed.

Lemma torchOffForFlash_zoom d :
  Device.videoZoomFactor (torchOffForFlash d) = Device.videoZoomFactor d.
Proof. unfold torchOffForFlash. by case_match. Qed.

(** X2: If every device starts with a zoom factor of at least 1, then after
    any sequence of controller calls, photo deliveries and pinch events
    (whatever scale the gestures report) every device's zoom factor is still
    at least 1. *)
Theorem zoom_never_below_one (calls : list Call) (w : World) :
  zoomAtLeastOne w -> zoomAtLeastOne (run calls w).
Proof.
  apply (keeps_run (preserved zoomAtLeastOne)) with
    (good := fun f => forall d,
               (1 <= Device.videoZoomFactor d)%Q ->
               (1 <= Device.videoZoomFactor (f d))%Q).
  - apply preserved_refl.
  - apply preserved_trans.
  - intros f _ w0 H id. apply H.
  - intros e _ w0 H id. apply H.
  - intros n w0 H id. apply H.
  - intros id f Hf w0 H id'. rewrite device_updateDevice_cases.
    case_decide; [apply Hf|]; apply H.
  - apply baseline_zoom_ge.
  - intros d s d' _. apply minMaxZoom_ge.
  - intros d. by rewrite torchOffForFlash_zoom.
  - done.
  - intros mode w0 _ H id. apply H.
Qed.

(** ** Completions *)

(** X3: Every capture completion the controller ever issues carries an image
    or an error and never both or neither: if the trace starts that way, it
    stays that way after any sequence of calls, photo deliveries and pinch
    events. *)
Theorem completions_carry_image_or_error (calls : list Call) (w : World) :
  completionsWellFormed w -> completionsWellFormed (run calls w).
Proof.
  apply (keeps_run (preserved completionsWellFormed)) with
    (good := fun _ => True); try (intros; exact I).
  - apply preserved_refl.
  - apply preserved_trans.
  - by intros f _ w0 H.
  - intros e He w0 H. unfold completionsWellFormed, emit. simpl.
    apply Forall_app. split; [done|]. by constructor.
  - by intros n w0 H.
  - by intros id f _ w0 H.
  - by intros mode w0 _ H.
Qed.

(** ** The hardware *)

Lemma sameHardware_refl w : sameHardware w w.
Proof. by repeat split. Qed.

Lemma sameHardware_trans w1 w2 w3 :
  sameHardware w1 w2 -> sameHardware w2 w3 -> sameHardware w1 w3.
Proof.
  intros (Hd1 & Hc1 & He1 & Hf1) (Hd2 & Hc2 & He2 & Hf2). repeat split.
  - by rewrite Hd2.
  - intros id. by rewrite Hc2.
  - auto.
  - by rewrite Hf2.
Qed.

Lemma torchOffForFlash_caps d : Device.caps (torchOffForFlash d) = Device.caps d.
Proof. unfold torchOffForFlash. by case_match. Qed.

Lemma run_sameHardware (calls : list Call) (w : World) :
  sameHardware w (run calls w).
Proof.
  apply (keeps_run sameHardware) with
    (good := fun f => forall d, Device.caps (f d) = Device.caps d).
  - apply sameHardware_refl.
  - apply sameHardware_trans.
  - intros f Hf w0. repeat split; try done. simpl. apply Hf.
  - by intros e _ w0.
  - by intros n w0.
  - intros id f Hf w0. repeat split; try done.
    + intros id'. rewrite device_updateDevice_cases.
      case_decide; [subst; apply Hf | done].
    + intros id' Hs. unfold updateDevice. simpl.
      apply lookup_insert_is_Some. destruct (decide (id = id')); auto.
  - apply baseline_caps.
  - done.
  - apply torchOffForFlash_caps.
  - done.
  - by intros mode w0 _.
Qed.

Lemma find_pointwise {A} (f g : A -> bool) l :
  (forall x, f x = g x) -> List.find f l = List.find g l.
Proof.
  intros H. induction l as [|x l IH]; [done|]. simpl. by rewrite H, IH.
Qed.

(** Which devices the system hands out depends on the hardware only. *)
Lemma default_sameHardware ty pos w w' :
  sameHardware w w' -> ty <> DeviceType.other ->
  AVCaptureDevice_default ty pos w' = AVCaptureDevice_default ty pos w.
Proof.
  intros (Hd & Hc & He & _) Hty. unfold AVCaptureDevice_default.
  rewrite Hd. apply find_pointwise. intros id.
  specialize (Hc id). specialize (He id). unfold device in Hc.
  rewrite !lookup_total_alt in Hc.
  destruct (devices w !! id) as [d|] eqn:E, (devices w' !! id) as [d'|] eqn:E';
    simpl in *.
  - by rewrite Hc.
  - destruct He as [? He]; [by eauto | done].
  - rewrite Hc. simpl. by rewrite bool_decide_eq_false_2.
  - done.
Qed.

(** X6: Whatever has been called before, prepare for the rear position (or
    with no position) selects the same rear device and reports to its
    handler exactly the result it would have reported on the initial world. *)
Theorem rear_selection_independent_of_history (calls : list Call)
    (cameraPosition : option CameraPosition) (hr : bool) (h : CallbackId)
    (w : World) :
  default rear cameraPosition = rear ->
  let w' := run calls w in
  selectRear w' = selectRear w /\
  events (exec (prepare cameraPosition hr h) w')
  = events w' ++ [PrepareCompleted h (prepareError cameraPosition w)].
Proof.
  intros Hpos w'.
  pose proof (run_sameHardware calls w) as Hhw. fold w' in Hhw.
  assert (Hsel : selectRear w' = selectRear w).
  { unfold selectRear. by rewrite !(default_sameHardware _ _ w w'). }
  split; [done|].
  destruct (prepare_facts cameraPosition hr h w') as (-> & _).
  do 3 f_equal. unfold prepareError. rewrite Hpos. simpl. rewrite Hsel.
  destruct (selectRear w) as [dev|]; [|done].
  destruct Hhw as (_ & Hc & _). by rewrite Hc.
Qed.

(** ** More about [switchCameras] *)

Lemma switchTo_refused target w :
  match cameraInput (self w), target (self w), captureSession (self w) with
  | Some i, Some _, Some s => i ∉ inputs s
  | _, _, _ => True
  end ->
  switchTo target w = (Throw (ControllerError invalidOperation), w).
Proof.
  intros H. unfold switchTo. run.
  destruct (cameraInput (self w)) as [i|]; [|done].
  destruct (target (self w)) as [cam|]; [|done].
  destruct (captureSession (self w)) as [s|]; simpl.
  - by rewrite bool_decide_eq_false_2.
  - done.
Qed.

Lemma switchTo_run target w s i cam :
  captureSession (self w) = Some s ->
  cameraInput (self w) = Some i ->
  target (self w) = Some cam ->
  i ∈ inputs s ->
  switchTo target w =
    let s1 := removeInput i s in
    let new := {| inputId := nextInputId w; inputDevice := cam |} in
    match inputFailure (Device.caps (device cam w)) with
    | Some code =>
        (Throw (FrameworkError code),
         setSelf (setCaptureSession (Some s1) (self w)) w)
    | None =>
        if canAddInput w s1 new then
          (Ok tt,
           setSelf
             (setCurrentCamera (Some cam)
                (setCameraInput (Some new)
                   (setCaptureSession (Some (addInput new s1)) (self w))))
             (setNextInputId (S (nextInputId w)) w))
        else
          (Throw (ControllerError invalidOperation),
           setSelf (setCaptureSession (Some s1) (self w))
             (setNextInputId (S (nextInputId w)) w))
    end.
Proof.
  intros Hs Hi Ht Hin. unfold switchTo, AVCaptureDeviceInput_init. run.
  rewrite Hi, Ht, Hs. simpl. rewrite bool_decide_eq_true_2 by done.
  rewrite Hs. simpl. unfold device. simpl.
  destruct (inputFailure _); [done|]. simpl.
  destruct (canAddInput w _ _); reflexivity.
Qed.

Lemma switchCameras_run w s dev :
  captureSession (self w) = Some s ->
  isRunning s = true ->
  currentCamera (self w) = Some dev ->
  position (Device.caps (device dev w)) <> Position.unspecified ->
  switchCameras w =
    let w0 :=
      setSelf (setCaptureSession (Some (beginConfiguration s)) (self w)) w in
    match (match position (Device.caps (device dev w)) with
           | Position.front => switchTo rearCamera w0
           | _ => switchTo frontCamera w0
           end) with
    | (Ok _, w1) =>
        let w2 := exec (attempt configureCameraSettings) w1 in
        (Ok tt,
         setSelf
           (setCaptureSession
              (commitConfiguration <$> captureSession (self w2)) (self w2))
           w2)
    | (Throw e, w1) => (Throw e, w1)
    end.
Proof.
  intros Hs Hr Hc Hp. unfold switchCameras, switchToRearCamera,
    switchToFrontCamera. run.
  unfold sessionIsRunning. rewrite Hs. simpl. rewrite Hr, Hc. simpl.
  unfold device in *. simpl.
  destruct (position _); [done| |]; simpl; rewrite Hs; simpl.
  all: match goal with |- context [switchTo ?t ?w0] =>
         destruct (switchTo t w0) as [[[]|e] w1] end; simpl; try done.
  all: destruct (configureCameraSettings w1); reflexivity.
Qed.

Lemma switchTo_opposite w0 pos :
  pos <> Position.unspecified ->
  match pos with
  | Position.front => switchTo rearCamera w0
  | _ => switchTo frontCamera w0
  end = switchTo (opposite pos) w0.
Proof. by destruct pos. Qed.

Lemma switchCameras_switches_run (w : World) (s : Session) (dev cam : DeviceId)
    (i : DeviceInput) :
  captureSession (self w) = Some s ->
  isRunning s = true ->
  currentCamera (self w) = Some dev ->
  position (Device.caps (device dev w)) <> Position.unspecified ->
  opposite (position (Device.caps (device dev w))) (self w) = Some cam ->
  cameraInput (self w) = Some i ->
  i ∈ inputs s ->
  inputFailure (Device.caps (device cam w)) = None ->
  let new := {| inputId := nextInputId w; inputDevice := cam |} in
  canAddInput w (removeInput i (beginConfiguration s)) new = true ->
  let w' := exec switchCameras w in
  outcome switchCameras w = Ok tt /\
  currentCamera (self w') = Some cam /\
  cameraInput (self w') = Some new /\
  captureSession (self w')
  = Some (setInputs
            (List.filter (fun j => negb (bool_decide (j = i))) (inputs s)
             ++ [new]) s) /\
  devices w' =
    match lockFailure (Device.caps (device cam w)) with
    | Some _ => devices w
    | None => <[cam := baseline (device cam w)]> (devices w)
    end /\
  rearCamera (self w') = rearCamera (self w) /\
  frontCamera (self w') = frontCamera (self w) /\
  nextInputId w' = S (nextInputId w) /\
  canAddInput w' = canAddInput w.
Proof.
  intros Hs Hr Hc Hp Ho Hi Hin Hf new Hadd w'.
  unfold w', exec, outcome.
  rewrite (switchCameras_run w s dev Hs Hr Hc Hp). cbv zeta.
  rewrite (switchTo_opposite _ _ Hp).
  erewrite switchTo_run; [| reflexivity | exact Hi | exact Ho | exact Hin].
  cbv zeta. rewrite !device_setSelf, Hf. simpl. fold new. rewrite Hadd.
  unfold exec, attempt.
  erewrite configureCameraSettings_run by reflexivity.
  rewrite device_setSelf.
  change (device cam (setNextInputId ?n w)) with (device cam w).
  destruct (lockFailure _); simpl; repeat split.
Qed.

(** X16: When the opposite camera cannot be opened or the session refuses
    its input, switchCameras throws (the framework error, or
    InvalidOperation) after the old input has been removed: the session is
    left without that input and with the configuration still open, while
    currentCamera and cameraInput still name the old camera. *)
Theorem switchCameras_failure_detaches_input (w : World) (s : Session)
    (dev cam : DeviceId) (i : DeviceInput) :
  captureSession (self w) = Some s ->
  isRunning s = true ->
  currentCamera (self w) = Some dev ->
  position (Device.caps (device dev w)) <> Position.unspecified ->
  opposite (position (Device.caps (device dev w))) (self w) = Some cam ->
  cameraInput (self w) = Some i ->
  i ∈ inputs s ->
  let new := {| inputId := nextInputId w; inputDevice := cam |} in
  inputFailure (Device.caps (device cam w)) <> None \/
  canAddInput w (removeInput i (beginConfiguration s)) new = false ->
  let w' := exec switchCameras w in
  outcome switchCameras w
  = Throw (match inputFailure (Device.caps (device cam w)) with
           | Some code => FrameworkError code
           | None => ControllerError invalidOperation
           end) /\
  currentCamera (self w') = Some dev /\
  cameraInput (self w') = Some i /\
  captureSession (self w')
  = Some (setOpenConfigurations (S (openConfigurations s))
            (setInputs
               (List.filter (fun j => negb (bool_decide (j = i))) (inputs s))
               s)) /\
  devices w' = devices w.
Proof.
  intros Hs Hr Hc Hp Ho Hi Hin new Hfail w'.
  unfold w', exec, outcome.
  rewrite (switchCameras_run w s dev Hs Hr Hc Hp). cbv zeta.
  rewrite (switchTo_opposite _ _ Hp).
  erewrite switchTo_run; [| reflexivity | exact Hi | exact Ho | exact Hin].
  cbv zeta. rewrite !device_setSelf. simpl. fold new.
  destruct (inputFailure _) as [code|]; simpl; [by repeat split|].
  destruct Hfail as [?| ->]; [done|]. by repeat split.
Qed.

(** ** At most one camera input *)

Lemma run_cons c calls w : run (c :: calls) w = run calls (step c w).
Proof. reflexivity. Qed.

(** The calls that leave the session object alone. *)
Lemma step_keeps_session c w :
  match c with
  | CallPrepare _ _ _ | CallStop | CallSwitchCameras => True
  | _ => captureSession (self (step c w)) = captureSession (self w)
  end.
Proof.
  destruct c as [| | |completion|completion| |mode| |photo error|pinch];
    try exact I; simpl; unfold exec.
  - unfold captureImage. run. by destruct (sessionIsRunning _).
  - unfold captureSample. run. by destruct (sessionIsRunning _).
  - unfold getSupportedFlashModes. run. by destruct (currentCamera _).
  - destruct (currentCamera (self w)) as [dev|] eqn:Hc.
    + rewrite (setFlashMode_run mode w dev Hc).
      case_bool_decide; [|done]. by destruct (lockFailure _).
    + unfold setFlashMode. run. by rewrite Hc.
  - destruct (currentCamera (self w)) as [dev|] eqn:Hc.
    + rewrite (setTorchMode_run w dev Hc). cbv zeta.
      destruct (_ && _); [|done]. by destruct (lockFailure _).
    + unfold setTorchMode. run. by rewrite Hc.
  - unfold photoOutput_didFinishProcessingPhoto, call. run.
    destruct (photoCaptureCompletionBlock _), error;
      try destruct (fileDataRepresentation photo) as [[?|]|]; done.
  - destruct (currentCamera (self w)) as [dev|] eqn:Hc.
    + rewrite (handlePinch_run pinch w dev Hc).
      destruct (state pinch); try done.
      all: rewrite update_run; by destruct (lockFailure _).
    + unfold handlePinch. run. by rewrite Hc.
Qed.

Lemma removeInput_only i s :
  i ∈ inputs s -> length (inputs s) <= 1 -> inputs (removeInput i s) = [].
Proof.
  destruct s as [r p l o n]. simpl. destruct l as [|j [|k l]]; simpl.
  - by intros ?%elem_of_nil.
  - intros ->%list_elem_of_singleton _. by rewrite bool_decide_eq_true_2.
  - lia.
Qed.

Lemma switchCameras_not_running w :
  sessionIsRunning (self w) = false ->
  switchCameras w = (Throw (ControllerError captureSessionIsMissing), w).
Proof. intros H. unfold switchCameras. run. by rewrite H. Qed.

Lemma switchCameras_no_camera w :
  sessionIsRunning (self w) = true ->
  currentCamera (self w) = None ->
  switchCameras w = (Throw (ControllerError noCamerasAvailable), w).
Proof. intros H Hc. unfold switchCameras. run. by rewrite H, Hc. Qed.

Lemma sessionIsRunning_true c :
  sessionIsRunning c = true ->
  exists s, captureSession c = Some s /\ isRunning s = true.
Proof.
  unfold sessionIsRunning. destruct (captureSession c) as [s|]; [|done].
  simpl. eauto.
Qed.

Lemma switchCameras_one_input w :
  atMostOneInput w -> atMostOneInput (exec switchCameras w).
Proof.
  intros H. unfold exec.
  destruct (sessionIsRunning (self w)) eqn:Hrun;
    [|by rewrite switchCameras_not_running].
  destruct (currentCamera (self w)) as [dev|] eqn:Hc;
    [|by rewrite switchCameras_no_camera].
  apply sessionIsRunning_true in Hrun as (s & Hs & Hr).
  unfold atMostOneInput in *. rewrite Hs in H.
  destruct (decide (position (Device.caps (device dev w)) = Position.unspecified))
    as [Hp|Hp].
  { by rewrite (switchCameras_unspecified w s dev Hs Hr Hc Hp). }
  rewrite (switchCameras_run w s dev Hs Hr Hc Hp). cbv zeta.
  rewrite (switchTo_opposite _ _ Hp).
  set (target := opposite (position (Device.caps (device dev w)))).
  set (w0 := setSelf (setCaptureSession (Some (beginConfiguration s)) (self w)) w).
  assert (Hs0 : captureSession (self w0) = Some (beginConfiguration s))
    by reflexivity.
  destruct (cameraInput (self w0)) as [i|] eqn:Hi;
    [|rewrite switchTo_refused; [simpl; rewrite ?Hs0; simpl; exact H | by rewrite Hi]].
  destruct (target (self w0)) as [cam|] eqn:Ht;
    [|rewrite switchTo_refused; [simpl; rewrite ?Hs0; simpl; exact H | by rewrite Hi, Ht]].
  destruct (decide (i ∈ inputs s)) as [Hin|Hin];
    [|rewrite switchTo_refused; [simpl; rewrite ?Hs0; simpl; exact H | by rewrite Hi, Ht, Hs0]].
  rewrite (switchTo_run target w0 (beginConfiguration s) i cam Hs0 Hi Ht Hin).
  cbv zeta.
  assert (Hrem : inputs (removeInput i (beginConfiguration s)) = [])
    by (by apply removeInput_only).
  simpl in Hrem.
  destruct (inputFailure _); simpl; [rewrite Hrem; simpl; lia|].
  destruct (canAddInput _ _ _); simpl; [|rewrite Hrem; simpl; lia].
  unfold exec, attempt.
  erewrite configureCameraSettings_run by reflexivity.
  destruct (lockFailure _); simpl; rewrite ?Hrem; simpl; lia.
Qed.

(** X7: A session with at most one camera input attached still has at most
    one after any sequence of controller calls, photo deliveries and pinch
    events; prepare and switchCameras never leave two inputs attached. *)
Theorem at_most_one_input_after_any_run (calls : list Call) (w : World) :
  atMostOneInput w -> atMostOneInput (run calls w).
Proof.
  revert w. induction calls as [|c calls IH]; intros w H; [done|].
  rewrite run_cons. apply IH.
  pose proof (step_keeps_session c w) as Hk.
  destruct c; simpl in *; try (unfold atMostOneInput; by rewrite Hk).
  - destruct (prepare_more_facts cameraPosition isHighResolutionPhotoEnabled
                completionHandler w)
      as (_ & _ & _ & _ & _ & s & Hs & _ & _ & Hcases).
    unfold atMostOneInput. rewrite Hs.
    destruct (selected _ w) as [dev|];
      [|destruct Hcases as [_ ->]; simpl; lia].
    destruct (inputFailure _); [destruct Hcases as [_ ->]; simpl; lia|].
    destruct Hcases as (_ & _ & ->). case_match; simpl; lia.
  - unfold atMostOneInput, exec, stop in *. run.
    by destruct (captureSession (self w)).
  - by apply switchCameras_one_input.
Qed.

(** ** Clamping *)

Lemma Qle_bool_cases x y :
  Qle_bool x y = true /\ (x <= y)%Q \/ Qle_bool x y = false /\ (y < x)%Q.
Proof.
  destruct (Qle_bool x y) eqn:E.
  - left. split; [done|]. by apply Qle_bool_iff.
  - right. split; [done|]. apply Qnot_le_lt. rewrite <- Qle_bool_iff. congruence.
Qed.

(** X8: minMaxZoom always returns at least 1; it returns at most the
    device's maximum zoom when that maximum is at least 1, returns the
    factor itself when it lies in [1, max], 1 when the factor is at most 1,
    and the maximum when the factor is at or above it. *)
Theorem minMaxZoom_clamps (d : Device.t) (factor : Q) :
  let top := videoMaxZoomFactor (Device.caps d) in
  (1 <= minMaxZoom d factor)%Q /\
  ((1 <= top)%Q -> (minMaxZoom d factor <= top)%Q) /\
  ((1 <= factor)%Q -> (factor <= top)%Q -> minMaxZoom d factor = factor) /\
  ((factor <= 1)%Q -> (minMaxZoom d factor == 1)%Q) /\
  ((top <= factor)%Q -> (1 <= top)%Q -> (minMaxZoom d factor == top)%Q).
Proof.
  intros top. unfold minMaxZoom. fold top. unfold swiftMax, swiftMin.
  destruct (Qle_bool_cases factor top) as [[-> H1]|[-> H1]].
  - destruct (Qle_bool_cases 1 factor) as [[-> H2]|[-> H2]];
      repeat split; intros; try reflexivity; lra.
  - destruct (Qle_bool_cases 1 top) as [[-> H2]|[-> H2]];
      repeat split; intros; try reflexivity; lra.
Qed.

(** ** Pinch gestures never fail *)

(** X9: handlePinch never throws. With no device selected it does nothing;
    when the device refuses the configuration lock during began/changed, the
    error is only printed and nothing else changes. *)
Theorem handlePinch_swallows_failures (pinch : UIPinchGestureRecognizer)
    (w : World) :
  outcome (handlePinch pinch) w = Ok tt /\
  (currentCamera (self w) = None -> exec (handlePinch pinch) w = w) /\
  (forall dev code,
     currentCamera (self w) = Some dev ->
     lockFailure (Device.caps (device dev w)) = Some code ->
     state pinch = GestureState.began \/ state pinch = GestureState.changed ->
     exec (handlePinch pinch) w = emit (DebugPrint (FrameworkError code)) w).
Proof.
  unfold outcome, exec.
  destruct (currentCamera (self w)) as [dev|] eqn:Hc.
  - rewrite (handlePinch_run pinch w dev Hc).
    repeat split; try done.
    + destruct (state pinch); rewrite ?update_run; try done.
      all: by destruct (lockFailure _).
    + intros dev' code [= <-] Hl Hst.
      destruct Hst as [-> | ->]; by rewrite update_run, Hl.
  - unfold handlePinch. run. rewrite Hc. by repeat split.
Qed.

(** A whole gesture: the factor committed when it ends is the clamped scale
    of its last change. *)
(** X10: For a device that grants the configuration lock, a gesture change
    with scale s followed by the end of the gesture leaves both the device
    zoom and the controller's videoZoomFactor at the clamped scale
    minMaxZoom(s), which is at least 1. *)
Theorem pinch_commits_last_applied_factor (s : Q) (endScale : Q) (w : World)
    (dev : DeviceId) :
  currentCamera (self w) = Some dev ->
  lockFailure (Device.caps (device dev w)) = None ->
  let w' :=
    exec (handlePinch {| state := GestureState.changed; scale := s |};;
          handlePinch {| state := GestureState.ended; scale := endScale |}) w in
  videoZoomFactor (self w') = minMaxZoom (device dev w) s /\
  Device.videoZoomFactor (device dev w') = minMaxZoom (device dev w) s /\
  (1 <= videoZoomFactor (self w'))%Q.
Proof.
  intros Hc Hl w'. unfold w', exec, bind.
  rewrite (handlePinch_run _ w dev Hc). simpl. rewrite update_run, Hl.
  rewrite (handlePinch_run _ _ dev) by exact Hc. simpl.
  rewrite device_setSelf, device_updateDevice. simpl.
  repeat split. apply minMaxZoom_ge.
Qed.

(** ** [prepare]: its handler, its session *)

(** X11: prepare never throws and calls its completion handler exactly once,
    with nil, NoCamerasAvailable or the framework error of a refused
    configuration lock; it leaves the pending photo and sample completion
    blocks and the stored flash mode untouched. *)
Theorem prepare_reports_once (cameraPosition : option CameraPosition)
    (hr : bool) (h : CallbackId) (w : World) :
  let w' := exec (prepare cameraPosition hr h) w in
  outcome (prepare cameraPosition hr h) w = Ok tt /\
  (exists error,
     events w' = events w ++ [PrepareCompleted h error] /\
     (error = None \/
      error = Some (ControllerError noCamerasAvailable) \/
      exists code, error = Some (FrameworkError code))) /\
  photoCaptureCompletionBlock (self w') = photoCaptureCompletionBlock (self w) /\
  sampleBufferCaptureCompletionBlock (self w')
  = sampleBufferCaptureCompletionBlock (self w) /\
  flashMode (self w') = flashMode (self w).
Proof.
  intros w'.
  destruct (prepare_more_facts cameraPosition hr h w)
    as (Hout & Hp & Hs & Hf & _).
  destruct (prepare_facts cameraPosition hr h w) as (Hev & _).
  split; [done|]. split; [|done].
  exists (prepareError cameraPosition w). split; [done|].
  unfold prepareError. repeat case_match; eauto.
Qed.

(** X12: When prepare reports NoCamerasAvailable, the controller is left
    with a fresh session that is not running and has no input, whatever
    session was running before, and no device has been reconfigured. *)
Theorem prepare_without_camera_drops_session
    (cameraPosition : option CameraPosition) (hr : bool) (h : CallbackId)
    (w : World) :
  let w' := exec (prepare cameraPosition hr h) w in
  events w'
  = events w ++ [PrepareCompleted h (Some (ControllerError noCamerasAvailable))] ->
  sessionIsRunning (self w') = false /\
  exists s, captureSession (self w') = Some s /\ inputs s = [] /\
            devices w' = devices w.
Proof.
  intros w' Hev.
  destruct (prepare_facts cameraPosition hr h w) as (Hev' & _ & _ & _ & _ & Hd & _).
  fold w' in Hev', Hd. rewrite Hev' in Hev. apply app_inv_head in Hev.
  injection Hev as Herr.
  destruct (prepare_more_facts cameraPosition hr h w)
    as (_ & _ & _ & _ & _ & s & Hs & _ & _ & Hcases).
  fold w' in Hs, Hcases. unfold sessionIsRunning. rewrite Hs. simpl.
  rewrite Herr in Hd. unfold prepareError in Herr.
  destruct (selected _ w) as [dev|].
  - destruct (inputFailure _).
    + destruct Hcases as [Hr Hi]. rewrite Hr. split; [done|]. by exists s.
    + by destruct (lockFailure _).
  - destruct Hcases as [Hr Hi]. rewrite Hr. split; [done|]. by exists s.
Qed.

(** X13: When prepare reports the framework error of a refused configuration
    lock, the session has nevertheless been started: it is running with the
    selected camera's input recorded, and no device has been reconfigured. *)
Theorem prepare_lock_failure_still_runs
    (cameraPosition : option CameraPosition) (hr : bool) (h : CallbackId)
    (w : World) (code : nat) :
  let w' := exec (prepare cameraPosition hr h) w in
  events w' = events w ++ [PrepareCompleted h (Some (FrameworkError code))] ->
  sessionIsRunning (self w') = true /\
  devices w' = devices w /\
  exists dev, currentCamera (self w') = Some dev /\
              lockFailure (Device.caps (device dev w)) = Some code /\
              cameraInput (self w')
              = Some {| inputId := nextInputId w; inputDevice := dev |}.
Proof.
  intros w' Hev.
  destruct (prepare_facts cameraPosition hr h w)
    as (Hev' & _ & _ & _ & Hcur & Hd & _).
  fold w' in Hev', Hd, Hcur. rewrite Hev' in Hev. apply app_inv_head in Hev.
  injection Hev as Herr.
  destruct (prepare_more_facts cameraPosition hr h w)
    as (_ & _ & _ & _ & _ & s & Hs & _ & _ & Hcases).
  fold w' in Hs, Hcases. unfold sessionIsRunning. rewrite Hs. simpl.
  rewrite Herr in Hd. unfold prepareError in Herr.
  destruct (selected _ w) as [dev|]; [|done].
  destruct (inputFailure _); [done|].
  destruct (lockFailure _) as [code'|] eqn:Hl; [|done].
  injection Herr as ->. destruct Hcases as (Hr & Hi & _). rewrite Hr.
  split; [done|]. split; [done|]. by exists dev.
Qed.

(** ** The torch *)

(** X18: setTorchMode fails with InvalidOperation and changes nothing when
    no device is selected, the device has no available torch, or the
    configuration lock is refused; otherwise it changes only the device's
    torch mode, to on if supported, else auto if supported, else off. *)
Theorem setTorchMode_spec (w : World) :
  match currentCamera (self w) with
  | None => setTorchMode w = (Throw (ControllerError invalidOperation), w)
  | Some dev =>
      let d := device dev w in
      let w' := exec setTorchMode w in
      (hasTorch (Device.caps d) && isTorchAvailable (Device.caps d) = false
       \/ lockFailure (Device.caps d) <> None ->
       setTorchMode w = (Throw (ControllerError invalidOperation), w)) /\
      (hasTorch (Device.caps d) = true ->
       isTorchAvailable (Device.caps d) = true ->
       lockFailure (Device.caps d) = None ->
       outcome setTorchMode w = Ok tt /\
       w' = updateDevice dev (setTorch (bestTorchMode d)) w /\
       self w' = self w /\
       device dev w' = setTorch (bestTorchMode d) d /\
       (TorchMode.on ∈ supportedTorchModes (Device.caps d) ->
        Device.torchMode (device dev w') = TorchMode.on) /\
       (TorchMode.on ∉ supportedTorchModes (Device.caps d) ->
        TorchMode.auto ∈ supportedTorchModes (Device.caps d) ->
        Device.torchMode (device dev w') = TorchMode.auto) /\
       (TorchMode.on ∉ supportedTorchModes (Device.caps d) ->
        TorchMode.auto ∉ supportedTorchModes (Device.caps d) ->
        Device.torchMode (device dev w') = TorchMode.off))
  end.
Proof.
  destruct (currentCamera (self w)) as [dev|] eqn:Hc.
  2:{ unfold setTorchMode. run. by rewrite Hc. }
  intros d w'. unfold w', exec, outcome.
  rewrite (setTorchMode_run w dev Hc). cbv zeta. fold d. split.
  - intros [-> | Hl]; [done|].
    destruct (_ && _); [|done]. by destruct (lockFailure _).
  - intros -> -> ->. simpl. rewrite device_updateDevice. fold d.
    unfold bestTorchMode. repeat split.
    + intros H. by rewrite bool_decide_eq_true_2.
    + intros H1 H2. simpl.
      by rewrite bool_decide_eq_false_2, bool_decide_eq_true_2.
    + intros H1 H2. simpl. by rewrite !bool_decide_eq_false_2.
Qed.

(** ** The list of flash modes *)

Lemma flashModeValue_not_torch (modes : list FlashMode.t) :
  "torch" ∉ omap flashModeValue modes.
Proof.
  intros (m & _ & Hm)%list_elem_of_omap. by destruct m.
Qed.

(** X19: With a device selected getSupportedFlashModes changes nothing and
    returns only the names off, on, auto and torch: torch is listed exactly
    when the device has a torch, no supported flash mode is dropped when the
    device has a flash, and the list is empty for a device with neither. *)
Theorem getSupportedFlashModes_spec (w : World) (dev : DeviceId) :
  currentCamera (self w) = Some dev ->
  let d := device dev w in
  exists modes,
    getSupportedFlashModes w = (Ok modes, w) /\
    ("torch" ∈ modes <-> hasTorch (Device.caps d) = true) /\
    (forall name, name ∈ modes ->
       name = "off" \/ name = "on" \/ name = "auto" \/ name = "torch") /\
    length modes
    = (if hasFlash (Device.caps d)
       then length (supportedFlashModes (photoOutput (self w))) else 0)
      + (if hasTorch (Device.caps d) then 1 else 0) /\
    (hasFlash (Device.caps d) = false -> hasTorch (Device.caps d) = false ->
     modes = []).
Proof.
  intros Hc d. unfold getSupportedFlashModes. run. rewrite Hc. fold d.
  eexists. split; [reflexivity|].
  set (flash := supportedFlashModes (photoOutput (self w))).
  assert (Hlen : length (omap flashModeValue flash) = length flash).
  { induction flash as [|m l IH]; [done|].
    destruct m; simpl; f_equal; exact IH. }
  assert (Hnames : forall name, name ∈ omap flashModeValue flash ->
            name = "off" \/ name = "on" \/ name = "auto").
  { intros name (m & _ & Hm)%list_elem_of_omap.
    destruct m; injection Hm as <-; auto. }
  pose proof (flashModeValue_not_torch flash) as Hnt.
  destruct (hasFlash _), (hasTorch _); simpl; repeat split;
    rewrite ?app_nil_r, ?length_app, ?Hlen; simpl; try done; try lia.
  all: try (intros _; apply elem_of_app; right; apply list_elem_of_here).
  all: try (intros name [H|H%list_elem_of_singleton]%elem_of_app;
            [apply Hnames in H; tauto | tauto]).
  all: try (intros name H; apply Hnames in H; tauto).
  all: try (intros name H%list_elem_of_singleton; tauto).
  all: try (intros name H%elem_of_nil; done).
  all: try (intros H%elem_of_nil; done).
  all: intros _; apply list_elem_of_here.
Qed.

(** ** Switching there and back *)

Lemma switched_caps w cam id :
  Device.caps
    (match lockFailure (Device.caps (device cam w)) with
     | Some _ => devices w
     | None => <[cam := baseline (device cam w)]> (devices w)
     end !!! id)
  = Device.caps (device id w).
Proof.
  destruct (lockFailure _); [done|].
  destruct (decide (cam = id)) as [->|Hne].
  - by rewrite lookup_total_insert_eq, baseline_caps.
  - by rewrite lookup_total_insert_ne.
Qed.

(** X17: With both cameras known and openable and a framework that accepts
    inputs, two successive switchCameras calls succeed and return to the
    original camera, with a single fresh input for it attached and the rest
    of the session (running, preset, open configurations) as it was. *)
Theorem switchCameras_twice_returns (w : World) (s : Session)
    (dev cam : DeviceId) (i : DeviceInput) :
  captureSession (self w) = Some s ->
  isRunning s = true ->
  inputs s = [i] ->
  cameraInput (self w) = Some i ->
  currentCamera (self w) = Some dev ->
  position (Device.caps (device dev w)) <> Position.unspecified ->
  position (Device.caps (device cam w)) <> Position.unspecified ->
  opposite (position (Device.caps (device dev w))) (self w) = Some cam ->
  opposite (position (Device.caps (device cam w))) (self w) = Some dev ->
  inputFailure (Device.caps (device dev w)) = None ->
  inputFailure (Device.caps (device cam w)) = None ->
  (forall s' j, canAddInput w s' j = true) ->
  let w' := exec (switchCameras;; switchCameras) w in
  outcome (switchCameras;; switchCameras) w = Ok tt /\
  currentCamera (self w') = Some dev /\
  captureSession (self w')
  = Some (setInputs
            [{| inputId := S (nextInputId w); inputDevice := dev |}] s) /\
  rearCamera (self w') = rearCamera (self w) /\
  frontCamera (self w') = frontCamera (self w).
Proof.
  intros Hs Hr Hin Hi Hc Hpd Hpc Hod Hoc Hfd Hfc Hadd w'.
  assert (Hmem : i ∈ inputs s) by (rewrite Hin; apply list_elem_of_here).
  destruct (switchCameras_switches_run w s dev cam i Hs Hr Hc Hpd Hod Hi Hmem Hfc
              (Hadd _ _))
    as (Ho1 & Hc1 & Hi1 & Hs1 & Hd1 & Hrear1 & Hfront1 & Hn1 & Hcan1).
  set (w1 := exec switchCameras w) in *.
  set (new := {| inputId := nextInputId w; inputDevice := cam |}) in *.
  rewrite Hin in Hs1. simpl in Hs1.
  rewrite bool_decide_eq_true_2 in Hs1 by done. simpl in Hs1.
  assert (Hcaps : forall id, Device.caps (device id w1) = Device.caps (device id w)).
  { intros id. unfold device at 1. rewrite Hd1. apply switched_caps. }
  assert (Hopp : forall pos, opposite pos (self w1) = opposite pos (self w)).
  { intros pos. unfold opposite. by rewrite Hrear1, Hfront1. }
  assert (Hmem1 : new ∈ inputs (setInputs [new] s)) by apply list_elem_of_here.
  assert (Hpc1 : position (Device.caps (device cam w1)) <> Position.unspecified)
    by (by rewrite Hcaps).
  assert (Hoc1 : opposite (position (Device.caps (device cam w1))) (self w1)
                 = Some dev) by (by rewrite Hcaps, Hopp).
  assert (Hfd1 : inputFailure (Device.caps (device dev w1)) = None)
    by (by rewrite Hcaps).
  assert (Hadd1 : canAddInput w1
                    (removeInput new (beginConfiguration (setInputs [new] s)))
                    {| inputId := nextInputId w1; inputDevice := dev |} = true)
    by (rewrite Hcan1; apply Hadd).
  destruct (switchCameras_switches_run w1 (setInputs [new] s) cam dev new
              Hs1 Hr Hc1 Hpc1 Hoc1 Hi1 Hmem1 Hfd1 Hadd1)
    as (Ho2 & Hc2 & Hi2 & Hs2 & Hd2 & Hrear2 & Hfront2 & _).
  assert (E : (switchCameras;; switchCameras) w = switchCameras w1).
  { unfold bind. unfold outcome in Ho1. unfold w1, exec.
    destruct (switchCameras w) as [r w0]. simpl in *. by rewrite Ho1. }
  unfold w', exec, outcome. rewrite E. fold (outcome switchCameras w1).
  fold (exec switchCameras w1). rewrite Ho2, Hc2, Hs2, Hrear2, Hfront2, Hn1.
  simpl. rewrite bool_decide_eq_true_2 by done. simpl. done.
Qed.

(** ** A capture from request to completion *)

(** X20: On a running session, captureImage followed by the hardware's
    delivery issues one hardware capture with the stored flash mode and
    calls the caller's completion once: with the hardware error if there is
    one, else with the decoded image made upright, else with the Unknown
    error when the photo has no decodable data. *)
Theorem capture_round_trip (completion : CallbackId) (photo : AVCapturePhoto)
    (error : option Error) (w : World) :
  sessionIsRunning (self w) = true ->
  let w' :=
    exec (captureImage completion;;
          photoOutput_didFinishProcessingPhoto photo error) w in
  events w' =
    events w ++
      [CapturePhoto (flashMode (self w));
       match error, fileDataRepresentation photo with
       | Some e, _ => CaptureCompleted completion None (Some e)
       | None, Some (Some image) =>
           CaptureCompleted completion
             (Some {| pixels := pixels image; upright := true |}) None
       | None, _ =>
           CaptureCompleted completion None (Some (ControllerError unknown))
       end] /\
  photoCaptureCompletionBlock (self w') = Some completion.
Proof.
  intros Hrun w'. unfold w', exec, bind.
  rewrite captureImage_running by done.
  unfold photoOutput_didFinishProcessingPhoto, call, emit. run.
  destruct error; simpl; [by rewrite <- app_assoc|].
  destruct (fileDataRepresentation photo) as [[image|]|]; simpl;
    by rewrite <- app_assoc.
Qed.

(** X21: A photo (or a hardware error) delivered while no still-photo
    completion block is registered is dropped: the delegate returns normally
    and the world is unchanged. *)
Theorem photo_without_request_is_dropped (photo : AVCapturePhoto)
    (error : option Error) (w : World) :
  photoCaptureCompletionBlock (self w) = None ->
  photoOutput_didFinishProcessingPhoto photo error w = (Ok tt, w).
Proof.
  intros H. unfold photoOutput_didFinishProcessingPhoto. run. rewrite H.
  destruct error; [done|].
  by destruct (fileDataRepresentation photo) as [[image|]|].
Qed.

(** ** The two completion slots *)

(** X22: Still-photo and sample requests use separate slots: on a running
    session captureImage and captureSample commute, captureSample issues no
    hardware capture, and a photo delivered afterwards calls the photo block
    once and neither calls nor clears the sample block. *)
Theorem capture_slots_independent (photoBlock sampleBlock : CallbackId)
    (photo : AVCapturePhoto) (error : option Error) (w : World) :
  sessionIsRunning (self w) = true ->
  photoBlock <> sampleBlock ->
  let w1 := exec (captureImage photoBlock;; captureSample sampleBlock) w in
  let w2 := exec (captureSample sampleBlock;; captureImage photoBlock) w in
  let w3 := exec (photoOutput_didFinishProcessingPhoto photo error) w1 in
  w1 = w2 /\
  photoCaptureCompletionBlock (self w1) = Some photoBlock /\
  sampleBufferCaptureCompletionBlock (self w1) = Some sampleBlock /\
  events w1 = events w ++ [CapturePhoto (flashMode (self w))] /\
  sampleBufferCaptureCompletionBlock (self w3) = Some sampleBlock /\
  fulfilments sampleBlock (events w3) = fulfilments sampleBlock (events w) /\
  fulfilments photoBlock (events w3) = S (fulfilments photoBlock (events w)).
Proof.
  intros Hrun Hne w1 w2 w3.
  assert (E1 : w1 = setSelf
                      (setSampleBlock (Some sampleBlock)
                         (setPhotoBlock (Some photoBlock) (self w)))
                      (emit (CapturePhoto (flashMode (self w))) w)).
  { unfold w1, exec, bind. rewrite captureImage_running by done.
    unfold captureSample. run. unfold sessionIsRunning in *. simpl.
    by rewrite Hrun. }
  assert (E2 : w2 = w1).
  { rewrite E1. unfold w2, exec, bind, captureSample. run. rewrite Hrun. simpl.
    rewrite captureImage_running by done. reflexivity. }
  assert (Hb : photoCaptureCompletionBlock (self w1) = Some photoBlock)
    by (by rewrite E1).
  destruct (photoOutput_calls_slot photo error w1 photoBlock Hb)
    as (image & err & E3).
  assert (E3' : w3 = emit (CaptureCompleted photoBlock image err) w1)
    by (unfold w3, exec; by rewrite E3).
  split; [done|]. split; [done|]. split; [rewrite E1; reflexivity|].
  split; [rewrite E1; reflexivity|].
  split; [rewrite E3', E1; reflexivity|].
  rewrite E3', E1. unfold fulfilments, emit. simpl.
  rewrite !List.filter_app, !length_app. simpl.
  rewrite (bool_decide_eq_true_2 (photoBlock = photoBlock)) by done.
  rewrite (bool_decide_eq_false_2 (photoBlock = sampleBlock)) by done.
  simpl. lia.
Qed.

(** ** Stopping *)

Lemma world_eta w :
  setSelf (self w) w = w.
Proof. by destruct w. Qed.

(** X23: stop is idempotent, does nothing at all when there is no session or
    the session is not running, and after stop switchCameras fails with
    CaptureSessionIsMissing without changing anything. *)
Theorem stop_idempotent (w : World) :
  exec (stop;; stop) w = exec stop w /\
  (captureSession (self w) = None -> exec stop w = w) /\
  (sessionIsRunning (self w) = false -> exec stop w = w) /\
  switchCameras (exec stop w)
  = (Throw (ControllerError captureSessionIsMissing), exec stop w).
Proof.
  split; [|split; [|split]].
  - unfold exec, bind, stop. run. by destruct (captureSession (self w)).
  - intros H. unfold exec, stop. run. rewrite H. simpl.
    rewrite <- H. by destruct w as [[] ? ? ? ? ? ?].
  - intros H. unfold exec, stop, sessionIsRunning in *. run.
    destruct w as [[cs ? ? ? ? ? ? ? ? ? ?] ? ? ? ? ? ?]. simpl in *.
    destruct cs as [[r ? ? ? ?]|]; simpl in *; by subst.
  - apply switchCameras_not_running. unfold exec, stop, sessionIsRunning. run.
    by destruct (captureSession (self w)).
Qed.

(** ** A camera input the session refuses *)

(** X14: When the session refuses the camera input (canAddInput is false),
    prepare still reports success on a running session with no input
    attached, records the input as cameraInput, and a following
    switchCameras fails with InvalidOperation. *)
Theorem prepare_with_refused_input (cameraPosition : option CameraPosition)
    (hr : bool) (h : CallbackId) (w : World) (dev : DeviceId) :
  selected (default rear cameraPosition) w = Some dev ->
  inputFailure (Device.caps (device dev w)) = None ->
  lockFailure (Device.caps (device dev w)) = None ->
  let i := {| inputId := nextInputId w; inputDevice := dev |} in
  canAddInput w
    (if hr then setPreset SessionPreset.photo newSession else newSession) i
  = false ->
  let w' := exec (prepare cameraPosition hr h) w in
  events w' = events w ++ [PrepareCompleted h None] /\
  sessionIsRunning (self w') = true /\
  cameraInput (self w') = Some i /\
  (exists s, captureSession (self w') = Some s /\ inputs s = []) /\
  (position (Device.caps (device dev w)) <> Position.unspecified ->
   outcome switchCameras w' = Throw (ControllerError invalidOperation)).
Proof.
  intros Hsel Hin Hl i Hadd w'.
  destruct (prepare_facts cameraPosition hr h w)
    as (Hev & _ & _ & _ & Hcur & Hdev & Hrun).
  destruct (prepare_more_facts cameraPosition hr h w)
    as (_ & _ & _ & _ & _ & s & Hs & _ & _ & Hcases).
  fold w' in Hev, Hcur, Hdev, Hrun, Hs, Hcases.
  assert (Herr : prepareError cameraPosition w = None).
  { unfold prepareError. by rewrite Hsel, Hin, Hl. }
  rewrite Hsel in *. rewrite Hin in Hcases. cbv zeta in Hcases. fold i in Hcases.
  rewrite Hadd in Hcases. destruct Hcases as (Hr & Hi & Hinputs).
  rewrite Herr in *. specialize (Hrun eq_refl).
  repeat split; try done.
  - by exists s.
  - intros Hp.
    assert (Hcaps : Device.caps (device dev w') = Device.caps (device dev w)).
    { unfold device at 1. by rewrite Hdev, lookup_total_insert_eq, baseline_caps. }
    unfold outcome.
    rewrite (switchCameras_run w' s dev Hs Hr Hcur) by (by rewrite Hcaps).
    cbv zeta. rewrite switchTo_opposite by (by rewrite Hcaps).
    rewrite switchTo_refused; [done|]. simpl. rewrite Hi.
    destruct (opposite _ _); [|done]. simpl. rewrite Hinputs.
    apply not_elem_of_nil.
Qed.

(** ** Getters without a device *)

(** X24: With no device selected the non-throwing getters return neutral
    defaults (no picture sizes, compensation 0, range [0, 0], mode name
    unknown, no white-balance modes) and getSupportedFlashModes throws
    NoCamerasAvailable without changing anything. *)
Theorem getters_without_device (exposureModeRawValue : ExposureMode.t -> string)
    (whiteBalanceModeRawValue : WhiteBalanceMode.t -> string) (w : World) :
  currentCamera (self w) = None ->
  getSupportedPictureSizes w = [] /\
  getExposureCompensation w = 0%Q /\
  getExposureCompensationRange w = [0; 0]%Q /\
  getExposureMode exposureModeRawValue w = "unknown" /\
  getWhiteBalanceMode whiteBalanceModeRawValue w = "unknown" /\
  getSupportedWhiteBalanceModes whiteBalanceModeRawValue w = [] /\
  getSupportedFlashModes w = (Throw (ControllerError noCamerasAvailable), w).
Proof.
  intros H.
  unfold getSupportedPictureSizes, getExposureCompensation,
    getExposureCompensationRange, getExposureMode, getWhiteBalanceMode,
    getSupportedWhiteBalanceModes, getSupportedFlashModes.
  run. by rewrite H.
Qed.

(** ** Error descriptions *)

(** X25: Every CameraControllerError case has a non-empty description, and
    two different cases never share a description. *)
Theorem errorDescription_distinguishes (e1 e2 : CameraControllerError) :
  (exists text, errorDescription e1 = Some text /\ text <> "") /\
  (errorDescription e1 = errorDescription e2 -> e1 = e2).
Proof.
  split.
  - destruct e1; eexists; split; reflexivity || discriminate.
  - destruct e1, e2; simpl; intros H; try reflexivity; discriminate H.
Qed.

(** ** Video orientation *)


(** * Instances on the sample hardware *)

Lemma handset_zoom devs :
  map_Forall (fun _ d => (1 <= Device.videoZoomFactor d)%Q) devs ->
  zoomAtLeastOne (handset devs).
Proof.
  intros H id. unfold device, handset. simpl. rewrite lookup_total_alt.
  destruct (devs !! id) as [d|] eqn:E; simpl.
  - by apply (H id d).
  - apply Qle_refl.
Qed.

Lemma multiLensPhone_zoom : zoomAtLeastOne multiLensPhone.
Proof.
  apply handset_zoom.
  repeat (apply map_Forall_insert_2; [apply Qle_refl|]).
  apply map_Forall_empty.
Qed.

Lemma zoom_never_below_one_witness :
  zoomAtLeastOne (run sampleCalls multiLensPhone).
Proof. exact (zoom_never_below_one sampleCalls multiLensPhone multiLensPhone_zoom). Defined.

Lemma completions_carry_image_or_error_witness :
  completionsWellFormed (run sampleCalls multiLensPhone).
Proof.
  apply (completions_carry_image_or_error sampleCalls multiLensPhone).
  unfold completionsWellFormed. simpl. constructor.
Defined.

Lemma at_most_one_input_after_any_run_witness :
  atMostOneInput (run sampleCalls multiLensPhone).
Proof.
  apply (at_most_one_input_after_any_run sampleCalls multiLensPhone).
  unfold atMostOneInput. simpl. exact I.
Defined.

Lemma rear_selection_independent_of_history_witness :
  selectRear (run sampleCalls multiLensPhone) = selectRear multiLensPhone.
Proof.
  exact (proj1 (rear_selection_independent_of_history sampleCalls None false 9
                  multiLensPhone eq_refl)).
Defined.

(** X15: On a running session whose recorded input is attached, with the
    opposite camera known, openable and accepted by the session,
    switchCameras succeeds: the opposite camera becomes current, its new
    input replaces the old one, the configuration is committed (open count
    unchanged), the new camera gets the baseline configuration if it grants
    the lock (a refused lock is ignored), and no other device changes. *)
Theorem switchCameras_switches (w : World) (s : Session) (dev cam : DeviceId)
    (i : DeviceInput) :
  captureSession (self w) = Some s ->
  isRunning s = true ->
  currentCamera (self w) = Some dev ->
  position (Device.caps (device dev w)) <> Position.unspecified ->
  opposite (position (Device.caps (device dev w))) (self w) = Some cam ->
  cameraInput (self w) = Some i ->
  i ∈ inputs s ->
  inputFailure (Device.caps (device cam w)) = None ->
  let new := {| inputId := nextInputId w; inputDevice := cam |} in
  canAddInput w (removeInput i (beginConfiguration s)) new = true ->
  let w' := exec switchCameras w in
  outcome switchCameras w = Ok tt /\
  currentCamera (self w') = Some cam /\
  cameraInput (self w') = Some new /\
  captureSession (self w')
  = Some (setInputs
            (List.filter (fun j => negb (bool_decide (j = i))) (inputs s)
             ++ [new]) s) /\
  device cam w' =
    match lockFailure (Device.caps (device cam w)) with
    | Some _ => device cam w
    | None => baseline (device cam w)
    end /\
  (forall id, id <> cam -> device id w' = device id w).
Proof.
  intros Hs Hr Hc Hp Ho Hi Hin Hf new Hadd w'.
  destruct (switchCameras_switches_run w s dev cam i Hs Hr Hc Hp Ho Hi Hin Hf
              Hadd) as (H1 & H2 & H3 & H4 & H5 & _).
  fold w' in H2, H3, H4, H5. repeat split; try done.
  - unfold device at 1. rewrite H5. destruct (lockFailure _); [done|].
    by rewrite lookup_total_insert_eq.
  - intros id Hne. unfold device at 1. rewrite H5.
    destruct (lockFailure _); [done|]. by rewrite lookup_total_insert_ne.
Qed.

Ltac evaluate := vm_compute; first [reflexivity | discriminate | constructor].

Lemma switchCameras_switches_witness :
  currentCamera (self (exec switchCameras rearRunning)) = Some 2 /\
  captureSession (self (exec switchCameras rearRunning))
  = Some (setInputs [{| inputId := 1; inputDevice := 2 |}] rearSession).
Proof.
  assert (Hs : captureSession (self rearRunning) = Some rearSession)
    by evaluate.
  assert (Hr : isRunning rearSession = true) by evaluate.
  assert (Hc : currentCamera (self rearRunning) = Some 1) by evaluate.
  assert (Hp : position (Device.caps (device 1 rearRunning))
               <> Position.unspecified) by evaluate.
  assert (Ho : opposite (position (Device.caps (device 1 rearRunning)))
                 (self rearRunning) = Some 2) by evaluate.
  assert (Hi : cameraInput (self rearRunning)
               = Some {| inputId := 0; inputDevice := 1 |}) by evaluate.
  assert (Hin : {| inputId := 0; inputDevice := 1 |} ∈ inputs rearSession)
    by apply list_elem_of_here.
  assert (Hf : inputFailure (Device.caps (device 2 rearRunning)) = None)
    by evaluate.
  assert (Ha : canAddInput rearRunning
                 (removeInput {| inputId := 0; inputDevice := 1 |}
                    (beginConfiguration rearSession))
                 {| inputId := nextInputId rearRunning; inputDevice := 2 |}
               = true) by evaluate.
  destruct (switchCameras_switches rearRunning rearSession 1 2 _
              Hs Hr Hc Hp Ho Hi Hin Hf Ha) as (_ & H2 & _ & H4 & _).
  split; [exact H2|]. rewrite H4. evaluate.
Defined.

Lemma switchCameras_failure_detaches_input_witness :
  let w := exec (prepare (Some rear) false 7) brokenFrontPhone in
  outcome switchCameras w = Throw (FrameworkError 21) /\
  (inputs <$> captureSession (self (exec switchCameras w))) = Some [].
Proof.
  intros w.
  assert (Hs : captureSession (self w) = Some rearSession) by evaluate.
  assert (Hr : isRunning rearSession = true) by evaluate.
  assert (Hc : currentCamera (self w) = Some 1) by evaluate.
  assert (Hp : position (Device.caps (device 1 w)) <> Position.unspecified)
    by evaluate.
  assert (Ho : opposite (position (Device.caps (device 1 w))) (self w)
               = Some 2) by evaluate.
  assert (Hi : cameraInput (self w)
               = Some {| inputId := 0; inputDevice := 1 |}) by evaluate.
  assert (Hin : {| inputId := 0; inputDevice := 1 |} ∈ inputs rearSession)
    by apply list_elem_of_here.
  assert (Hf : inputFailure (Device.caps (device 2 w)) <> None) by evaluate.
  destruct (switchCameras_failure_detaches_input w rearSession 1 2 _
              Hs Hr Hc Hp Ho Hi Hin (or_introl Hf)) as (H1 & _ & _ & H4 & _).
  split.
  - rewrite H1. evaluate.
  - rewrite H4. evaluate.
Defined.

Lemma switchCameras_twice_returns_witness :
  let w := exec (prepare (Some rear) false 7) acceptingPhone in
  currentCamera (self (exec (switchCameras;; switchCameras) w)) = Some 1 /\
  captureSession (self (exec (switchCameras;; switchCameras) w))
  = Some (setInputs [{| inputId := 2; inputDevice := 1 |}] rearSession).
Proof.
  intros w.
  assert (Hs : captureSession (self w) = Some rearSession) by evaluate.
  assert (Hr : isRunning rearSession = true) by evaluate.
  assert (Hin : inputs rearSession = [{| inputId := 0; inputDevice := 1 |}])
    by evaluate.
  assert (Hi : cameraInput (self w)
               = Some {| inputId := 0; inputDevice := 1 |}) by evaluate.
  assert (Hc : currentCamera (self w) = Some 1) by evaluate.
  assert (Hp1 : position (Device.caps (device 1 w)) <> Position.unspecified)
    by evaluate.
  assert (Hp2 : position (Device.caps (device 2 w)) <> Position.unspecified)
    by evaluate.
  assert (Ho1 : opposite (position (Device.caps (device 1 w))) (self w)
                = Some 2) by evaluate.
  assert (Ho2 : opposite (position (Device.caps (device 2 w))) (self w)
                = Some 1) by evaluate.
  assert (Hf1 : inputFailure (Device.caps (device 1 w)) = None) by evaluate.
  assert (Hf2 : inputFailure (Device.caps (device 2 w)) = None) by evaluate.
  assert (Ha : forall s' j, canAddInput w s' j = true)
    by (intros; vm_compute; reflexivity).
  destruct (switchCameras_twice_returns w rearSession 1 2 _
              Hs Hr Hin Hi Hc Hp1 Hp2 Ho1 Ho2 Hf1 Hf2 Ha)
    as (_ & H2 & H3 & _).
  split; [exact H2|]. rewrite H3. evaluate.
Defined.

Lemma pinch_commits_last_applied_factor_witness :
  videoZoomFactor
    (self (exec (handlePinch {| state := GestureState.changed; scale := 40 |};;
                 handlePinch {| state := GestureState.ended; scale := 40 |})
             rearRunning))
  = minMaxZoom (device 1 rearRunning) 40.
Proof.
  assert (Hc : currentCamera (self rearRunning) = Some 1) by evaluate.
  assert (Hl : lockFailure (Device.caps (device 1 rearRunning)) = None)
    by evaluate.
  exact (proj1 (pinch_commits_last_applied_factor 40 40 rearRunning 1 Hc Hl)).
Defined.

Lemma prepare_without_camera_drops_session_witness :
  sessionIsRunning
    (self (exec (prepare (Some rear) false 8)
             (exec (prepare (Some front) false 7) frontOnlyTablet)))
  = false.
Proof.
  assert (Hev :
    events (exec (prepare (Some rear) false 8)
              (exec (prepare (Some front) false 7) frontOnlyTablet))
    = events (exec (prepare (Some front) false 7) frontOnlyTablet)
      ++ [PrepareCompleted 8 (Some (ControllerError noCamerasAvailable))])
    by evaluate.
  exact (proj1 (prepare_without_camera_drops_session (Some rear) false 8
                  (exec (prepare (Some front) false 7) frontOnlyTablet) Hev)).
Defined.

Lemma prepare_lock_failure_still_runs_witness :
  sessionIsRunning (self (exec (prepare (Some rear) false 7) lockedRearPhone))
  = true.
Proof.
  assert (Hev :
    events (exec (prepare (Some rear) false 7) lockedRearPhone)
    = events lockedRearPhone
      ++ [PrepareCompleted 7 (Some (FrameworkError 13))]) by evaluate.
  exact (proj1 (prepare_lock_failure_still_runs (Some rear) false 7
                  lockedRearPhone 13 Hev)).
Defined.

Lemma prepare_with_refused_input_witness :
  let w' := exec (prepare (Some rear) false 7) refusingPhone in
  events w' = events refusingPhone ++ [PrepareCompleted 7 None] /\
  outcome switchCameras w' = Throw (ControllerError invalidOperation).
Proof.
  assert (Hsel : selected (default rear (Some rear)) refusingPhone = Some 1)
    by evaluate.
  assert (Hin : inputFailure (Device.caps (device 1 refusingPhone)) = None)
    by evaluate.
  assert (Hl : lockFailure (Device.caps (device 1 refusingPhone)) = None)
    by evaluate.
  assert (Ha : canAddInput refusingPhone
                 (if false then setPreset SessionPreset.photo newSession
                  else newSession)
                 {| inputId := nextInputId refusingPhone; inputDevice := 1 |}
               = false) by evaluate.
  assert (Hp : position (Device.caps (device 1 refusingPhone))
               <> Position.unspecified) by evaluate.
  destruct (prepare_with_refused_input (Some rear) false 7 refusingPhone 1
              Hsel Hin Hl Ha) as (H1 & _ & _ & _ & H5).
  split; [exact H1 | exact (H5 Hp)].
Defined.

Lemma getSupportedFlashModes_spec_witness :
  exists modes,
    getSupportedFlashModes rearRunning = (Ok modes, rearRunning) /\
    "torch" ∈ modes /\ length modes = 3.
Proof.
  assert (Hc : currentCamera (self rearRunning) = Some 1) by evaluate.
  destruct (getSupportedFlashModes_spec rearRunning 1 Hc)
    as (modes & H1 & H2 & _ & H4 & _).
  exists modes. split; [exact H1|]. split.
  - apply H2. evaluate.
  - rewrite H4. evaluate.
Defined.

Lemma capture_round_trip_witness :
  events
    (exec (captureImage 4;;
           photoOutput_didFinishProcessingPhoto
             {| fileDataRepresentation :=
                  Some (Some {| pixels := 9; upright := false |}) |} None)
       rearRunning)
  = events rearRunning ++
      [CapturePhoto (flashMode (self rearRunning));
       CaptureCompleted 4 (Some {| pixels := 9; upright := true |}) None].
Proof.
  assert (Hrun : sessionIsRunning (self rearRunning) = true) by evaluate.
  exact (proj1 (capture_round_trip 4
                  {| fileDataRepresentation :=
                       Some (Some {| pixels := 9; upright := false |}) |}
                  None rearRunning Hrun)).
Defined.

Lemma photo_without_request_is_dropped_witness :
  photoOutput_didFinishProcessingPhoto {| fileDataRepresentation := None |}
    None rearRunning
  = (Ok tt, rearRunning).
Proof.
  assert (H : photoCaptureCompletionBlock (self rearRunning) = None)
    by evaluate.
  exact (photo_without_request_is_dropped _ _ rearRunning H).
Defined.

Lemma capture_slots_independent_witness :
  exec (captureImage 1;; captureSample 2) rearRunning
  = exec (captureSample 2;; captureImage 1) rearRunning.
Proof.
  assert (Hrun : sessionIsRunning (self rearRunning) = true) by evaluate.
  assert (Hne : 1 <> 2) by lia.
  exact (proj1 (capture_slots_independent 1 2
                  {| fileDataRepresentation := None |} None rearRunning
                  Hrun Hne)).
Defined.

Lemma getters_without_device_witness :
  getExposureMode exposureModeName multiLensPhone = "unknown" /\
  getSupportedFlashModes multiLensPhone
  = (Throw (ControllerError noCamerasAvailable), multiLensPhone).
Proof.
  assert (H : currentCamera (self multiLensPhone) = None) by evaluate.
  destruct (getters_without_device exposureModeName whiteBalanceModeName
              multiLensPhone H) as (_ & _ & _ & H4 & _ & _ & H7).
  split; [exact H4 | exact H7].
Defined.
